(** * H2O AutoML training with MLflow tracking: [backend/train.py]

    A shallow embedding of the two orchestration entry points of
    [src/backend/train.py], [train] (the artifact-logging variant) and
    [main] (the command-line variant), and of the collaborators they drive:
    the file system, the H2O frame loader and AutoML engine, and the MLflow
    tracking store.

    The script is effectful straight-line code.  It is embedded in a state
    and error monad over a [World]: the files, the persisted tracking store
    (experiments and runs), the process-local MLflow context (tracking URI,
    active experiment, active run) and the chronological trace of the calls
    made to the collaborators.  An exception keeps the effects made before
    it, as in Python.  What the collaborators decide on their own (the
    outcome of a training job, whether a publish step succeeds, where the
    store keeps its artifacts) is read from an environment [Env]. *)

From stdpp Require Import base option list strings pretty.
From Stdlib Require Import Ascii QArith.
Close Scope Q_scope.

Local Open Scope string_scope.
Local Open Scope list_scope.

(** ** Python string and path helpers *)

Module Py.

(** [s.startswith(p)] *)
Definition startswith (s p : string) : bool := String.prefix p s.

(** [s.replace(old, new)] for a non-empty [old]: leftmost,
    non-overlapping occurrences, all of them.  [skip] counts the
    characters of an occurrence still to be dropped. *)
Fixpoint replace_go (old new : string) (skip : nat) (s : string) : string :=
  match s with
  | EmptyString => EmptyString
  | String c s' =>
      match skip with
      | S k => replace_go old new k s'
      | O =>
          if String.prefix old s
          then new +:+ replace_go old new (String.length old - 1) s'
          else String c (replace_go old new 0 s')
      end
  end.

Definition replace (s old new : string) : string := replace_go old new 0 s.

Definition is_sep (c : ascii) : bool := Ascii.eqb c "/"%char.

(** [p[: p.rfind('/') + 1]] *)
Fixpoint upto_last_sep (p : string) : string :=
  match p with
  | EmptyString => EmptyString
  | String c p' =>
      match upto_last_sep p' with
      | EmptyString => if is_sep c then String c EmptyString else EmptyString
      | h => String c h
      end
  end.

(** [p[p.rfind('/') + 1 :]], that is [os.path.basename] *)
Fixpoint basename (p : string) : string :=
  match p with
  | EmptyString => EmptyString
  | String c p' =>
      match upto_last_sep p' with
      | EmptyString => if is_sep c then p' else p
      | _ => basename p'
      end
  end.

(** [s.rstrip('/')] *)
Fixpoint rstrip_sep (s : string) : string :=
  match s with
  | EmptyString => EmptyString
  | String c s' =>
      match rstrip_sep s' with
      | EmptyString => if is_sep c then EmptyString else String c EmptyString
      | r => String c r
      end
  end.

Fixpoint all_sep (s : string) : bool :=
  match s with
  | EmptyString => true
  | String c s' => is_sep c && all_sep s'
  end.

(** [posixpath.dirname] *)
Definition dirname (p : string) : string :=
  let head := upto_last_sep p in
  if all_sep head then head else rstrip_sep head.

Fixpoint last_char (s : string) : option ascii :=
  match s with
  | EmptyString => None
  | String c s' =>
      match last_char s' with
      | None => Some c
      | Some d => Some d
      end
  end.

(** [posixpath.join(a, b)] *)
Definition join (a b : string) : string :=
  if startswith b "/" then b
  else match last_char a with
       | None => b
       | Some c => if is_sep c then a +:+ b else a +:+ "/" +:+ b
       end.

End Py.


(** ** Data model *)

(** An H2O frame, as far as the script looks at it: the ordered columns
    with their inferred type tag (["int"], ["real"], ["enum"], ...).
    [col_names] is [frame.col_names], [types] is the dict [frame.types]. *)
Record H2OFrame := mkFrame { frame_columns : list (string * string) }.

Definition col_names (fr : H2OFrame) : list string := (frame_columns fr).*1.
Definition types (fr : H2OFrame) : list (string * string) := frame_columns fr.

(** Lookup in a Python dict kept as an association list. *)
Fixpoint dict_get {V} (k : string) (d : list (string * V)) : option V :=
  match d with
  | [] => None
  | (k', v) :: d' => if String.eqb k' k then Some v else dict_get k d'
  end.

(** A scalar metric (a Python float; only passed along, never computed on). *)
Definition scalar := Q.

(** A trained model, as far as the script looks at it: [logloss()], [auc()]. *)
Record H2OModel := mkModel {
  model_id : string;
  logloss : scalar;
  auc : scalar
}.

(** A table: a pandas data frame as [to_csv] sees it. *)
Record Table := mkTable {
  tbl_columns : list string;
  tbl_rows : list (list string)
}.

(** The keyword arguments of [H2OAutoML(...)]. *)
Record AutoMLPolicy := mkPolicy {
  max_models : Z;
  seed : Z;
  balance_classes : bool;
  sort_metric : string;
  verbosity : string;
  exclude_algos : list string
}.

(** A finished AutoML job: [aml.leader] and what
    [get_leaderboard(aml, extra_columns=...)] returns, rows in rank order. *)
Record H2OAutoML := mkAutoML {
  leader : H2OModel;
  leaderboard : string -> Table
}.

Definition get_leaderboard (aml : H2OAutoML) (extra_columns : string) : Table :=
  leaderboard aml extra_columns.

(** Regular files, by what they hold. *)
Inductive file :=
| Dataset (fr : H2OFrame)
| JsonTypes (tys : list (string * string))
| CsvFile (lines : list (list string))
| ModelFile (m : H2OModel).

(** [DataFrame.to_csv(path, index=False)]: the header row, then the rows
    in their order. *)
Definition csv_lines (t : Table) : list (list string) := tbl_columns t :: tbl_rows t.

Inductive Lifecycle := active | deleted.
Inductive RunStatus := RUNNING | FINISHED | FAILED.

(** An MLflow experiment.  Its [experiment_id] is its position in the
    registry. *)
Record Experiment := mkExperiment {
  exp_name : string;
  artifact_location : string;
  lifecycle_stage : Lifecycle
}.

(** An MLflow run.  Its [run_id] is its position in the store (MLflow draws
    a fresh identifier; the serial number stands for it). *)
Record Run := mkRun {
  run_experiment : nat;
  run_status : RunStatus;
  run_artifact_uri : string;
  run_metrics : list (string * scalar);
  run_artifacts : list (string * file)
}.

Inductive error :=
| FileNotFoundError (msg : string)
| InvalidTargetError (column : string)
| H2OValueError (msg : string)
| H2OParseError (path : string)
| TrainingError
| MlflowException (msg : string)
| AttributeError (msg : string)
| OSError (msg : string).

(** The calls made to the collaborators, in the order they are made. *)
Inductive event :=
| EvMakedirs (path : string)
| EvSetTrackingUri (uri : string)
| EvH2OInit
| EvPathExists (path : string)
| EvImportFile (path : string)
| EvJsonDump (path : string) (tys : list (string * string))
| EvAsFactor (column : string)
| EvCreateExperiment (name : string)
| EvGetExperimentByName (name : string)
| EvSetExperiment (name : string)
| EvStartRun (run : nat)
| EvEndRun (run : nat) (status : RunStatus)
| EvLogArtifact (run : nat) (local_path artifact_path : string)
| EvLogMetric (run : nat) (key : string) (value : scalar)
| EvLogModel (run : nat) (m : H2OModel) (artifact_path : string)
| EvGetArtifactUri (run : nat) (artifact_path uri : string)
| EvAutoMLTrain (policy : AutoMLPolicy) (x : list string) (y : string) (frame : H2OFrame)
| EvToCsv (path : string) (lines : list (list string))
| EvPrint (line : string).

(** Calls that reach the tracking store (the experiment registry, runs,
    metrics and artifacts).  [mlflow.set_tracking_uri] only sets a
    process-local option and is not one. *)
Definition tracking_store_call (e : event) : bool :=
  match e with
  | EvCreateExperiment _ | EvGetExperimentByName _ | EvSetExperiment _
  | EvStartRun _ | EvEndRun _ _ | EvLogArtifact _ _ _ | EvLogMetric _ _ _
  | EvLogModel _ _ _ | EvGetArtifactUri _ _ _ => true
  | _ => false
  end.

(** Calls that hand a job to the training engine. *)
Definition engine_call (e : event) : bool :=
  match e with
  | EvAutoMLTrain _ _ _ _ => true
  | _ => false
  end.

Definition run_call (e : event) : bool :=
  match e with
  | EvStartRun _ | EvEndRun _ _ => true
  | _ => false
  end.

(** ** The world *)

Record World := mkWorld {
  fs : list (string * file);           (* regular files, latest write first *)
  experiments : list Experiment;       (* persisted registry *)
  runs : list Run;                     (* persisted runs *)
  tracking_uri : option string;        (* process-local *)
  active_experiment : option nat;      (* process-local *)
  active_run : option nat;             (* process-local *)
  trace : list event
}.

Definition set_fs (f : list (string * file)) (w : World) : World :=
  mkWorld f (experiments w) (runs w) (tracking_uri w) (active_experiment w)
          (active_run w) (trace w).
Definition set_experiments (es : list Experiment) (w : World) : World :=
  mkWorld (fs w) es (runs w) (tracking_uri w) (active_experiment w)
          (active_run w) (trace w).
Definition set_runs (rs : list Run) (w : World) : World :=
  mkWorld (fs w) (experiments w) rs (tracking_uri w) (active_experiment w)
          (active_run w) (trace w).
Definition set_tracking_uri (u : option string) (w : World) : World :=
  mkWorld (fs w) (experiments w) (runs w) u (active_experiment w)
          (active_run w) (trace w).
Definition set_active_experiment (e : option nat) (w : World) : World :=
  mkWorld (fs w) (experiments w) (runs w) (tracking_uri w) e
          (active_run w) (trace w).
Definition set_active_run (r : option nat) (w : World) : World :=
  mkWorld (fs w) (experiments w) (runs w) (tracking_uri w) (active_experiment w)
          r (trace w).
Definition emit (e : event) (w : World) : World :=
  mkWorld (fs w) (experiments w) (runs w) (tracking_uri w) (active_experiment w)
          (active_run w) (trace w ++ [e]).

(** A new process on the same machine: the files and the tracking store
    persist, the MLflow context and the trace start empty. *)
Definition fresh_process (w : World) : World :=
  mkWorld (fs w) (experiments w) (runs w) None None None [].

(** What the collaborators decide on their own. *)
Record Env := mkEnv {
  (* the artifact root URI of the store the tracking URI (or, for [None],
     the default) designates *)
  artifact_root : option string -> string;
  (* [mlflow.get_tracking_uri()] when none was set *)
  default_tracking_uri : string;
  (* the outcome of [aml.train(...)]; [None] when the engine raises *)
  automl : AutoMLPolicy -> list string -> string -> H2OFrame -> option H2OAutoML;
  (* whether a publishing call (artifact, metric, model, directory or CSV
     write) goes through *)
  io_ok : event -> bool
}.

(** ** The state and error monad *)

Inductive Result (A : Type) :=
| Ok (a : A)
| Err (e : error).
Arguments Ok {A} a.
Arguments Err {A} e.

Definition M (A : Type) : Type := World -> Result A * World.

#[global] Instance M_ret : MRet M := fun A a w => (Ok a, w).
#[global] Instance M_bind : MBind M := fun A B k m w =>
  match m w with
  | (Ok a, w') => k a w'
  | (Err e, w') => (Err e, w')
  end.

(** [raise e] *)
Definition raise {A} (e : error) : M A := fun w => (Err e, w).

(** [try: m  except: h] with a bare [except]: any exception of [m] is
    caught; what [m] did before raising stays done. *)
Definition try_except {A} (m h : M A) : M A := fun w =>
  match m w with
  | (Ok a, w') => (Ok a, w')
  | (Err _, w') => h w'
  end.

Definition get {A} (f : World -> A) : M A := fun w => (Ok (f w), w).
Definition modify (f : World -> World) : M unit := fun w => (Ok tt, f w).
Definition call (e : event) : M unit := modify (emit e).

(** ** The collaborators *)

Section Collaborators.

Variable env : Env.

(** *** File system and standard output *)

(** [os.makedirs(path, exist_ok=True)].  Directories are not part of
    [fs], which holds regular files only. *)
Definition os_makedirs (path : string) : M unit := call (EvMakedirs path).

(** [os.path.exists(path)] *)
Definition os_path_exists (path : string) : M bool :=
  call (EvPathExists path) ;;
  get (fun w => match dict_get path (fs w) with Some _ => true | None => false end).

(** [with open(path, 'w') as fp: json.dump(tys, fp)] *)
Definition json_dump (tys : list (string * string)) (path : string) : M unit :=
  call (EvJsonDump path tys) ;;
  modify (fun w => set_fs ((path, JsonTypes tys) :: fs w) w).

(** [table.to_csv(path, index=False)] *)
Definition to_csv (t : Table) (path : string) : M unit :=
  let e := EvToCsv path (csv_lines t) in
  call e ;;
  if io_ok env e
  then modify (fun w => set_fs ((path, CsvFile (csv_lines t)) :: fs w) w)
  else raise (OSError path).

Definition print (line : string) : M unit := call (EvPrint line).

(** *** H2O: cluster, frame loader, training engine *)

Definition h2o_init : M unit := call EvH2OInit.

(** [h2o.import_file(path=path)] *)
Definition h2o_import_file (path : string) : M H2OFrame :=
  call (EvImportFile path) ;;
  o ← get (fun w => dict_get path (fs w)) ;
  match o with
  | Some (Dataset fr) => mret fr
  | Some _ => raise (H2OParseError path)
  | None => raise (FileNotFoundError path)
  end.

(** The column types [asfactor()] accepts. *)
Definition asfactor_allowed (t : string) : bool :=
  existsb (String.eqb t) ["bool"; "int"; "string"; "enum"].

Definition set_enum (column : string) (fr : H2OFrame) : H2OFrame :=
  mkFrame (map (fun '(n, t) => if String.eqb n column then (n, "enum") else (n, t))
               (frame_columns fr)).

(** [frame[column] = frame[column].asfactor()]: selecting a column the
    frame does not have fails, and so does factorizing a column whose
    type is not one of the accepted ones. *)
Definition frame_asfactor (fr : H2OFrame) (column : string) : M H2OFrame :=
  call (EvAsFactor column) ;;
  match dict_get column (types fr) with
  | None => raise (InvalidTargetError column)
  | Some t =>
      if asfactor_allowed t then mret (set_enum column fr)
      else raise (H2OValueError column)
  end.

(** [aml = H2OAutoML(...)] with the policy as keyword arguments, then
    [aml.train(x=x, y=y, training_frame=frame)] *)
Definition automl_train (policy : AutoMLPolicy) (x : list string) (y : string)
    (frame : H2OFrame) : M H2OAutoML :=
  call (EvAutoMLTrain policy x y frame) ;;
  match automl env policy x y frame with
  | Some aml => mret aml
  | None => raise TrainingError
  end.

(** *** MLflow *)

Definition mlflow_set_tracking_uri (uri : string) : M unit :=
  call (EvSetTrackingUri uri) ;;
  modify (set_tracking_uri (Some uri)).

Definition mlflow_get_tracking_uri : M string :=
  get (fun w => default (default_tracking_uri env) (tracking_uri w)).

Fixpoint find_by_name (name : string) (i : nat) (es : list Experiment)
    : option (nat * Experiment) :=
  match es with
  | [] => None
  | e :: es' =>
      if String.eqb (exp_name e) name then Some (i, e)
      else find_by_name name (S i) es'
  end.

Definition new_experiment (name : string) (w : World) : Experiment :=
  mkExperiment name
    (artifact_root env (tracking_uri w) +:+ "/" +:+ pretty (length (experiments w)))
    active.

(** [mlflow.create_experiment(name)]: raises when the name is taken. *)
Definition mlflow_create_experiment (name : string) : M nat :=
  call (EvCreateExperiment name) ;;
  es ← get experiments ;
  match find_by_name name 0 es with
  | Some _ => raise (MlflowException name)
  | None =>
      e ← get (new_experiment name) ;
      modify (set_experiments (es ++ [e])) ;;
      mret (length es)
  end.

(** [client.get_experiment_by_name(name)]: [None] when there is none. *)
Definition get_experiment_by_name (name : string) : M (option (nat * Experiment)) :=
  call (EvGetExperimentByName name) ;;
  get (fun w => find_by_name name 0 (experiments w)).

(** Attribute access [experiment.<attr>] on what may be [None]. *)
Definition attr {A} (experiment : option (nat * Experiment))
    (f : nat * Experiment -> A) : M A :=
  match experiment with
  | Some x => mret (f x)
  | None => raise (AttributeError "NoneType")
  end.

(** [mlflow.set_experiment(name)]: makes the experiment of that name the
    active one, creating it when there is none; a deleted one is refused. *)
Definition mlflow_set_experiment (name : string) : M unit :=
  call (EvSetExperiment name) ;;
  es ← get experiments ;
  match find_by_name name 0 es with
  | None =>
      e ← get (new_experiment name) ;
      modify (set_experiments (es ++ [e])) ;;
      modify (set_active_experiment (Some (length es)))
  | Some (i, e) =>
      match lifecycle_stage e with
      | deleted => raise (MlflowException name)
      | active => modify (set_active_experiment (Some i))
      end
  end.

(** [mlflow.start_run()]: refused while a run is active; the new run
    belongs to the active experiment (the default one, number 0, when
    none was set) and starts as [RUNNING]. *)
Definition mlflow_start_run : M nat :=
  a ← get active_run ;
  match a with
  | Some _ => raise (MlflowException "run already active")
  | None =>
      eid ← get (fun w => default 0%nat (active_experiment w)) ;
      es ← get experiments ;
      match es !! eid with
      | None => raise (MlflowException "no such experiment")
      | Some e =>
          rs ← get runs ;
          let r := length rs in
          let uri := artifact_location e +:+ "/" +:+ pretty r +:+ "/artifacts" in
          call (EvStartRun r) ;;
          modify (set_runs (rs ++ [mkRun eid RUNNING uri [] []])) ;;
          modify (set_active_run (Some r)) ;;
          mret r
      end
  end.

Definition set_status (s : RunStatus) (r : Run) : Run :=
  mkRun (run_experiment r) s (run_artifact_uri r) (run_metrics r) (run_artifacts r).
Definition add_metric (k : string) (v : scalar) (r : Run) : Run :=
  mkRun (run_experiment r) (run_status r) (run_artifact_uri r)
        (run_metrics r ++ [(k, v)]) (run_artifacts r).
Definition add_artifact (k : string) (f : file) (r : Run) : Run :=
  mkRun (run_experiment r) (run_status r) (run_artifact_uri r)
        (run_metrics r) (run_artifacts r ++ [(k, f)]).

Definition update_run (r : nat) (f : Run -> Run) : M unit :=
  modify (fun w => set_runs (alter f r (runs w)) w).

(** [mlflow.end_run(status)]: closes the active run, if any. *)
Definition mlflow_end_run (status : RunStatus) (w : World) : World :=
  match active_run w with
  | None => w
  | Some r =>
      set_active_run None
        (set_runs (alter (set_status status) r (runs w))
           (emit (EvEndRun r status) w))
  end.

(** [with mlflow.start_run() as run: body]: on leaving the block the
    context manager ends the run, [FINISHED] when the body returned and
    [FAILED] when it raised, and lets the exception through. *)
Definition with_start_run {A} (body : nat -> M A) : M A := fun w =>
  match mlflow_start_run w with
  | (Err e, w1) => (Err e, w1)
  | (Ok run, w1) =>
      match body run w1 with
      | (Ok a, w2) => (Ok a, mlflow_end_run FINISHED w2)
      | (Err e, w2) => (Err e, mlflow_end_run FAILED w2)
      end
  end.

(** The fluent logging calls address the active run and start one when
    there is none. *)
Definition get_or_start_run : M nat :=
  a ← get active_run ;
  match a with
  | Some r => mret r
  | None => mlflow_start_run
  end.

(** [mlflow.log_artifact(local_path, artifact_path=artifact_path)] *)
Definition mlflow_log_artifact (local_path artifact_path : string) : M unit :=
  r ← get_or_start_run ;
  let e := EvLogArtifact r local_path artifact_path in
  call e ;;
  o ← get (fun w => dict_get local_path (fs w)) ;
  match o with
  | None => raise (OSError local_path)
  | Some f =>
      if io_ok env e
      then update_run r (add_artifact (Py.join artifact_path (Py.basename local_path)) f)
      else raise (OSError local_path)
  end.

(** [mlflow.log_metric(key, value)] *)
Definition mlflow_log_metric (key : string) (value : scalar) : M unit :=
  r ← get_or_start_run ;
  let e := EvLogMetric r key value in
  call e ;;
  if io_ok env e then update_run r (add_metric key value)
  else raise (MlflowException key).

(** [mlflow.h2o.log_model(model, artifact_path=artifact_path)] *)
Definition mlflow_h2o_log_model (m : H2OModel) (artifact_path : string) : M unit :=
  r ← get_or_start_run ;
  let e := EvLogModel r m artifact_path in
  call e ;;
  if io_ok env e then update_run r (add_artifact artifact_path (ModelFile m))
  else raise (OSError artifact_path).

(** [mlflow.get_artifact_uri(artifact_path)] *)
Definition mlflow_get_artifact_uri (artifact_path : string) : M string :=
  r ← get_or_start_run ;
  rs ← get runs ;
  match rs !! r with
  | None => raise (MlflowException "no such run")
  | Some run =>
      let uri := run_artifact_uri run +:+ "/" +:+ artifact_path in
      call (EvGetArtifactUri r artifact_path uri) ;;
      mret uri
  end.

(** [mlflow.active_run().info.run_id] *)
Definition mlflow_active_run_id : M nat :=
  a ← get active_run ;
  match a with
  | Some r => mret r
  | None => raise (AttributeError "NoneType")
  end.

End Collaborators.

(** ** The script *)

Section Script.

Variable env : Env.

(** The policy both entry points build the AutoML job with
    ([train] lines 58-65, [main] lines 165-172). *)
Definition automl_policy (models : Z) : AutoMLPolicy :=
  {| max_models := models;
     seed := 42;
     balance_classes := true;
     sort_metric := "logloss";
     verbosity := "info";
     exclude_algos := ["GLM"; "DRF"] |}.

(** [[n for n in main_frame.col_names if n != target]] *)
Definition predictors_of (main_frame : H2OFrame) (target : string) : list string :=
  filter (fun n => n ≠ target) (col_names main_frame).

(** [train], lines 41-45:
    [try: experiment_id = mlflow.create_experiment(experiment_name)
     except: experiment = client.get_experiment_by_name(experiment_name)
             experiment_id = experiment.experiment_id] *)
Definition train_experiment_setup (experiment_name : string) : M nat :=
  try_except
    (mlflow_create_experiment env experiment_name)
    (experiment ← get_experiment_by_name experiment_name ;
     attr experiment fst).

(** [train], lines 76-88: the leaderboard export, next to the model. *)
Definition train_save_leaderboard (aml : H2OAutoML) : M unit :=
  model_uri ← mlflow_get_artifact_uri "model" ;
  if Py.startswith model_uri "file:/" then
    let model_path := Py.replace model_uri "file:" "" in
    os_makedirs model_path ;;
    let leaderboard_path := Py.join model_path "leaderboard.csv" in
    let lb := get_leaderboard aml "ALL" in
    to_csv env lb leaderboard_path ;;
    print ("[✓] Model saved at: " +:+ model_uri) ;;
    print ("[✓] Leaderboard saved at: " +:+ leaderboard_path)
  else
    print ("[!] Unexpected artifact URI: " +:+ model_uri).

(** [train], lines 50-88: the body of the [with mlflow.start_run()] block. *)
Definition train_run_body (target : string) (models : Z)
    (file_path col_type_path : string) (predictors : list string)
    (main_frame : H2OFrame) (run_id : nat) : M unit :=
  mlflow_log_artifact env file_path "input_data" ;;
  mlflow_log_artifact env col_type_path "input_data" ;;
  aml ← automl_train env (automl_policy models) predictors target main_frame ;
  mlflow_log_metric env "log_loss" (logloss (leader aml)) ;;
  mlflow_log_metric env "AUC" (auc (leader aml)) ;;
  mlflow_h2o_log_model env (leader aml) "model" ;;
  train_save_leaderboard aml.

(** [def train(experiment_name, target, models, file_path)] *)
Definition train (experiment_name target : string) (models : Z)
    (file_path : string) : M unit :=
  let mlruns_path := "/app/backend/mlruns" in
  os_makedirs mlruns_path ;;
  mlflow_set_tracking_uri ("file:" +:+ mlruns_path) ;;
  h2o_init ;;
  found ← os_path_exists file_path ;
  if negb found
  then raise (FileNotFoundError ("Training file not found: " +:+ file_path))
  else
    main_frame ← h2o_import_file file_path ;
    let col_type_path := Py.join (Py.dirname file_path) "train_col_types.json" in
    json_dump (types main_frame) col_type_path ;;
    let predictors := predictors_of main_frame target in
    main_frame ← frame_asfactor main_frame target ;
    experiment_id ← train_experiment_setup experiment_name ;
    mlflow_set_experiment env experiment_name ;;
    with_start_run
      (train_run_body target models file_path col_type_path predictors main_frame).

(** What [parse_args()] returns: [--name] (default [automl-insurance]),
    [--target] (required) and [--models] (default 10). *)
Record Args := mkArgs {
  arg_name : string;
  arg_target : string;
  arg_models : Z
}.

Definition default_args (target : string) : Args :=
  mkArgs "automl-insurance" target 10.

(** [main], lines 134-138:
    [try: experiment_id = mlflow.create_experiment(experiment_name)
          experiment = client.get_experiment_by_name(experiment_name)
     except: experiment = client.get_experiment_by_name(experiment_name)] *)
Definition main_experiment_setup (experiment_name : string)
    : M (option (nat * Experiment)) :=
  try_except
    (experiment_id ← mlflow_create_experiment env experiment_name ;
     get_experiment_by_name experiment_name)
    (get_experiment_by_name experiment_name).

Definition lifecycle_string (l : Lifecycle) : string :=
  match l with active => "active" | deleted => "deleted" end.

(** [main], lines 164-195: the body of the [with mlflow.start_run()] block. *)
Definition main_run_body (args : Args) (experiment : option (nat * Experiment))
    (predictors : list string) (target : string) (main_frame : H2OFrame)
    (run : nat) : M unit :=
  aml ← automl_train env (automl_policy (arg_models args)) predictors target main_frame ;
  mlflow_log_metric env "log_loss" (logloss (leader aml)) ;;
  mlflow_log_metric env "AUC" (auc (leader aml)) ;;
  mlflow_h2o_log_model env (leader aml) "model" ;;
  model_uri ← mlflow_get_artifact_uri "model" ;
  print ("AutoML best model saved in " +:+ model_uri) ;;
  exp_id ← attr experiment fst ;
  run_id ← mlflow_active_run_id ;
  let lb := get_leaderboard aml "ALL" in
  let lb_path := "mlruns/" +:+ pretty exp_id +:+ "/" +:+ pretty run_id
                 +:+ "/artifacts/model/leaderboard.csv" in
  to_csv env lb lb_path ;;
  print ("AutoML Complete. Leaderboard saved in " +:+ lb_path).

(** [def main()], after [args = parse_args()] *)
Definition main (args : Args) : M unit :=
  h2o_init ;;
  let experiment_name := arg_name args in
  experiment ← main_experiment_setup experiment_name ;
  mlflow_set_experiment env experiment_name ;;
  print ("Name: " +:+ experiment_name) ;;
  exp_id ← attr experiment fst ;
  print ("Experiment_id: " +:+ pretty exp_id) ;;
  loc ← attr experiment (fun x => artifact_location (snd x)) ;
  print ("Artifact Location: " +:+ loc) ;;
  stage ← attr experiment (fun x => lifecycle_stage (snd x)) ;
  print ("Lifecycle_stage: " +:+ lifecycle_string stage) ;;
  uri ← mlflow_get_tracking_uri env ;
  print ("Tracking uri: " +:+ uri) ;;
  main_frame ← h2o_import_file "data/processed/train.csv" ;
  json_dump (types main_frame) "data/processed/train_col_types.json" ;;
  let target := arg_target args in
  let predictors := predictors_of main_frame target in
  main_frame ← frame_asfactor main_frame target ;
  with_start_run
    (main_run_body args experiment predictors target main_frame).

End Script.

(** ** Vocabulary of the statements *)

(** The calls made between two worlds of one execution. *)
Definition calls_since (w w' : World) : list event :=
  drop (length (trace w)) (trace w').

(** Where [train] keeps the column-type snapshot (line 32). *)
Definition col_type_path (file_path : string) : string :=
  Py.join (Py.dirname file_path) "train_col_types.json".

(** The experiment of that name, if there is one, can be made the active
    one: it has not been deleted. *)
Definition experiment_usable (name : string) (w : World) : Prop :=
  match find_by_name name 0 (experiments w) with
  | Some (_, e) => lifecycle_stage e = active
  | None => True
  end.

(** The status the context manager closes a run with. *)
Definition closing_status {A} (r : Result A) : RunStatus :=
  match r with
  | Ok _ => FINISHED
  | Err _ => FAILED
  end.

(** [main], lines 134-138 and 144: the experiment id the variant goes on with. *)
Definition main_experiment_id (env : Env) (experiment_name : string) : M nat :=
  experiment ← main_experiment_setup env experiment_name ;
  attr experiment fst.

(** The condition under which a target fails before training: the error,
    no run created, neither a training job nor a run call made. *)
Definition fails_before_training (target : string) (w : World)
    (out : Result unit * World) : Prop :=
  out.1 = Err (InvalidTargetError target)
  ∧ runs out.2 = runs w
  ∧ Forall (λ e, engine_call e = false ∧ run_call e = false) (calls_since w out.2).

(** An execution that either starts no run, or starts exactly one, the
    next in the store, and closes it, as its last call, with the status
    its outcome commands; no other run changes status; no run is left
    active. *)
Definition closes_its_run {A} (w : World) (out : Result A * World) : Prop :=
  let evs := calls_since w out.2 in
  (List.filter run_call evs = [] ∧ runs out.2 = runs w)
  ∨ (let r := length (runs w) in
     let s := closing_status out.1 in
     List.filter run_call evs = [EvStartRun r; EvEndRun r s]
     ∧ last evs = Some (EvEndRun r s)
     ∧ run_status <$> runs out.2 = (run_status <$> runs w) ++ [s]
     ∧ active_run out.2 = None).

(** A training job handed to the engine under the fixed policy, for the
    given budget, on a frame whose target column is categorical. *)
Definition policy_call (models : Z) (target : string) (e : event) : Prop :=
  match e with
  | EvAutoMLTrain p x y f =>
      max_models p = models ∧ seed p = 42%Z ∧ balance_classes p = true
      ∧ sort_metric p = "logloss" ∧ exclude_algos p = ["GLM"; "DRF"]
      ∧ y = target ∧ dict_get target (types f) = Some "enum"
  | _ => True
  end.

(** A training job whose predictor list is the column list of the dataset
    at [path], without the target. *)
Definition predictors_call (files : list (string * file)) (path target : string)
    (e : event) : Prop :=
  match e with
  | EvAutoMLTrain _ x _ _ =>
      ∃ fr, dict_get path files = Some (Dataset fr) ∧ x = predictors_of fr target
  | _ => True
  end.

(** The calls that write the column-type snapshot or factorize a column. *)
Definition snapshot_or_factor_call (e : event) : bool :=
  match e with
  | EvJsonDump _ _ | EvAsFactor _ => true
  | _ => false
  end.

(** The calls of the leaderboard export: the model is logged, its location
    is asked for, the leaderboard is written. *)
Definition export_call (e : event) : bool :=
  match e with
  | EvLogModel _ _ _ | EvGetArtifactUri _ _ _ | EvToCsv _ _ => true
  | _ => false
  end.

Definition csv_call (e : event) : bool :=
  match e with
  | EvToCsv _ _ => true
  | _ => false
  end.


(** [train], lines 78 and 80: where the leaderboard goes, from the URI of
    the model artifact. *)
Definition leaderboard_path (model_uri : string) : string :=
  Py.join (Py.replace model_uri "file:" "") "leaderboard.csv".

(** [main], line 193: where the leaderboard goes, from the two ids. *)
Definition lb_path (exp_id run_id : nat) : string :=
  "mlruns/" +:+ pretty exp_id +:+ "/" +:+ pretty run_id
  +:+ "/artifacts/model/leaderboard.csv".



(** A call that addresses a run addresses run [r]. *)
Definition own_run_call (r : nat) (e : event) : Prop :=
  match e with
  | EvStartRun r' | EvEndRun r' _ | EvLogArtifact r' _ _ | EvLogMetric r' _ _
  | EvLogModel r' _ _ | EvGetArtifactUri r' _ _ => r' = r
  | _ => True
  end.

(** The calls that address a run. *)
Definition run_store_call (e : event) : bool :=
  match e with
  | EvStartRun _ | EvEndRun _ _ | EvLogArtifact _ _ _ | EvLogMetric _ _ _
  | EvLogModel _ _ _ | EvGetArtifactUri _ _ _ => true
  | _ => false
  end.

(** The export calls of [train] come in the order of lines 73, 76 and 83,
    and a leaderboard is written only for a model URI that begins with
    [file:/], to the path lines 78 and 80 derive from that URI. *)
Definition train_export_shape (evs : list event) : Prop :=
  match List.filter export_call evs with
  | [] => True
  | [EvLogModel _ _ ap] => ap = "model"
  | [EvLogModel r _ ap; EvGetArtifactUri r' ap' _] =>
      ap = "model" ∧ ap' = "model" ∧ r' = r
  | [EvLogModel r _ ap; EvGetArtifactUri r' ap' uri; EvToCsv p _] =>
      ap = "model" ∧ ap' = "model" ∧ r' = r
      ∧ Py.startswith uri "file:/" = true
      ∧ p = leaderboard_path uri
  | _ => False
  end.

(** The export calls of [main] come in the order of lines 182, 184 and
    194, and the leaderboard is written to the path line 193 builds from
    the experiment id and the run id, whatever URI the store answered. *)
Definition main_export_shape (exp_id : Result nat) (evs : list event) : Prop :=
  match List.filter export_call evs with
  | [] => True
  | [EvLogModel _ _ ap] => ap = "model"
  | [EvLogModel r _ ap; EvGetArtifactUri r' ap' _] =>
      ap = "model" ∧ ap' = "model" ∧ r' = r
  | [EvLogModel r _ ap; EvGetArtifactUri r' ap' uri; EvToCsv p _] =>
      ap = "model" ∧ ap' = "model" ∧ r' = r
      ∧ ∃ i, exp_id = Ok i ∧ p = lb_path i r
  | _ => False
  end.

(** The string holds no occurrence of [file:]. *)
Fixpoint no_file_scheme (s : string) : bool :=
  match s with
  | EmptyString => true
  | String _ s' => negb (String.prefix "file:" s) && no_file_scheme s'
  end.

(** ** Weakest preconditions *)

Definition wp {A} (m : M A) (Q : Result A → World → Prop) (w : World) : Prop :=
  Q (m w).1 (m w).2.

(** ** Sample worlds *)

Module Sample.

Definition frame : H2OFrame :=
  mkFrame [("age", "int"); ("income", "real"); ("claim", "int")].

Definition aml : H2OAutoML :=
  mkAutoML (mkModel "GBM_1" (1 # 4)%Q (9 # 10)%Q)
    (fun _ => mkTable ["model_id"; "logloss"; "auc"]
                [["GBM_1"; "0.25"; "0.9"]; ["XGBoost_2"; "0.31"; "0.85"]]).

(** A local file store under [/app/backend/mlruns]; every job and every
    publishing call succeeds. *)
Definition env : Env :=
  mkEnv (fun _ => "file:///app/backend/mlruns") "file:///app/mlruns"
        (fun _ _ _ _ => Some aml) (fun _ => true).

(** The same, with an engine that raises. *)
Definition env_engine_down : Env :=
  mkEnv (fun _ => "file:///app/backend/mlruns") "file:///app/mlruns"
        (fun _ _ _ _ => None) (fun _ => true).

(** The same as [env], except that CSV writes fail (the directory they
    aim at does not exist). *)
Definition env_no_csv_dir : Env :=
  mkEnv (fun _ => "file:///app/backend/mlruns") "file:///app/mlruns"
        (fun _ _ _ _ => Some aml)
        (fun e => match e with EvToCsv _ _ => false | _ => true end).

Definition default_experiment : Experiment :=
  mkExperiment "Default" "file:///app/backend/mlruns/0" active.

(** A store with the default experiment only, and a dataset. *)
Definition world : World :=
  mkWorld [("/data/train.csv", Dataset frame)] [default_experiment] []
          None None None [].

(** The same store, with the dataset where [main] looks for it. *)
Definition world_cli : World :=
  mkWorld [("data/processed/train.csv", Dataset frame)] [default_experiment] []
          None None None [].

(** A store, but no dataset. *)
Definition world_no_data : World :=
  mkWorld [] [default_experiment] [] None None None [].

(** A store whose experiment [exp-A] keeps its artifacts in a bucket. *)
Definition world_bucket : World :=
  mkWorld [("/data/train.csv", Dataset frame)]
          [default_experiment; mkExperiment "exp-A" "s3://bucket/exp-A" active] []
          None None None [].

(** A store whose experiment [automl-insurance] was created with an
    artifact location of its own. *)
Definition world_relocated : World :=
  mkWorld [("data/processed/train.csv", Dataset frame)]
          [default_experiment;
           mkExperiment "automl-insurance" "file:///srv/artifacts/insurance" active]
          [] None None None [].

(** A store whose experiment [exp-A] has been deleted. *)
Definition world_deleted : World :=
  mkWorld [("/data/train.csv", Dataset frame)]
          [default_experiment;
           mkExperiment "exp-A" "file:///app/backend/mlruns/1" deleted] []
          None None None [].

End Sample.


(** * Proofs *)

Arguments Py.join : simpl never.
Arguments Py.dirname : simpl never.
Arguments Py.basename : simpl never.
Arguments Py.replace : simpl never.
Arguments Py.startswith : simpl never.
Arguments String.append : simpl never.
Arguments pretty : simpl never.
Arguments asfactor_allowed : simpl never.

Lemma alter_last {A} (f : A → A) (l : list A) (x : A) :
  alter f (length l) (l ++ [x]) = l ++ [f x].
Proof. induction l; simpl; [done | by f_equal]. Qed.

Lemma lookup_last {A} (l : list A) (x : A) : (l ++ [x]) !! length l = Some x.
Proof. induction l; simpl; done. Qed.

Lemma find_by_name_app_None name i es e :
  find_by_name name i es = None →
  find_by_name name i (es ++ [e])
  = if String.eqb (exp_name e) name then Some ((i + length es)%nat, e) else None.
Proof.
  revert i; induction es as [|e' es IH]; intros i; simpl.
  - rewrite Nat.add_0_r. done.
  - destruct (String.eqb (exp_name e') name); [done|].
    intros H. rewrite IH by done. by rewrite Nat.add_succ_r.
Qed.

Lemma find_by_name_app_Some name i es es' x :
  find_by_name name i es = Some x → find_by_name name i (es ++ es') = Some x.
Proof.
  revert i; induction es as [|e' es IH]; intros i; simpl; [done|].
  destruct (String.eqb (exp_name e') name); [done|]. apply IH.
Qed.

Lemma find_by_name_lookup name i es j e :
  find_by_name name i es = Some (j, e) →
  ∃ k, j = (i + k)%nat ∧ es !! k = Some e ∧ exp_name e = name.
Proof.
  revert i; induction es as [|e' es IH]; intros i; simpl; [done|].
  destruct (String.eqb (exp_name e') name) eqn:E.
  - intros [= <- <-]. exists 0%nat. rewrite Nat.add_0_r. apply String.eqb_eq in E. done.
  - intros H. destruct (IH _ H) as (k & -> & ? & ?). exists (S k). split; [lia|done].
Qed.

Lemma find_by_name_0_lookup name es j e :
  find_by_name name 0 es = Some (j, e) → es !! j = Some e.
Proof. intros H. by destruct (find_by_name_lookup _ _ _ _ _ H) as (k & -> & ? & _). Qed.

Lemma find_by_name_new name es e :
  find_by_name name 0 es = None → exp_name e = name →
  find_by_name name 0 (es ++ [e]) = Some (length es, e).
Proof.
  intros H <-. rewrite find_by_name_app_None by done. by rewrite String.eqb_refl.
Qed.

(** ** Rules of the weakest-precondition calculus *)

Lemma wp_bind {A B} (m : M A) (k : A → M B) Q w :
  wp m (λ r w1, match r with Ok a => wp (k a) Q w1 | Err e => Q (Err e) w1 end) w →
  wp (m ≫= k) Q w.
Proof. unfold wp, mbind, M_bind. by destruct (m w) as [[a|e] w1]. Qed.

Lemma wp_ret {A} (a : A) Q w : Q (Ok a) w → wp (mret a) Q w.
Proof. done. Qed.
Lemma wp_raise {A} e (Q : Result A → World → Prop) w : Q (Err e) w → wp (raise e) Q w.
Proof. done. Qed.
Lemma wp_get {A} (f : World → A) Q w : Q (Ok (f w)) w → wp (get f) Q w.
Proof. done. Qed.
Lemma wp_modify f Q w : Q (Ok tt) (f w) → wp (modify f) Q w.
Proof. done. Qed.
Lemma wp_call e Q w : Q (Ok tt) (emit e w) → wp (call e) Q w.
Proof. done. Qed.
Lemma wp_try {A} (m h : M A) Q w :
  wp m (λ r w1, match r with Ok a => Q (Ok a) w1 | Err _ => wp h Q w1 end) w →
  wp (try_except m h) Q w.
Proof. unfold wp, try_except. by destruct (m w) as [[a|e] w1]. Qed.
Lemma wp_with {A} (body : nat → M A) Q w :
  wp (mlflow_start_run) (λ r w1,
     match r with
     | Err e => Q (Err e) w1
     | Ok run => wp (body run) (λ r2 w2,
          match r2 with
          | Ok a => Q (Ok a) (mlflow_end_run FINISHED w2)
          | Err e => Q (Err e) (mlflow_end_run FAILED w2)
          end) w1
     end) w →
  wp (with_start_run body) Q w.
Proof.
  unfold wp, with_start_run. destruct (mlflow_start_run w) as [[a|e] w1]; [|done].
  simpl. by destruct (body a w1) as [[b|e] w2].
Qed.

Ltac wnorm :=
  cbn [fs experiments runs tracking_uri active_experiment active_run trace
       emit set_fs set_experiments set_runs set_tracking_uri
       set_active_experiment set_active_run default from_option id negb fst snd
       dict_get mlflow_end_run arg_name arg_target arg_models
       run_experiment run_status run_artifact_uri run_metrics run_artifacts
       set_status add_metric add_artifact
       new_experiment exp_name artifact_location lifecycle_stage].


Ltac head t := lazymatch t with ?f _ => head f | _ => t end.

Ltac inner x :=
  lazymatch x with
  | negb ?y => inner y
  | match ?y with _ => _ end => inner y
  | _ => x
  end.

Ltac wp_scrutinee x' :=
  let x := inner x' in
  first
  [ match goal with H : x = _ |- _ => rewrite H end
  | lazymatch x with
    | String.eqb ?a ?a => rewrite (String.eqb_refl a)
    | (?l ++ [_]) !! length ?l => rewrite lookup_last
    | find_by_name ?n 0 (?l ++ [?e]) =>
        match goal with H : find_by_name n 0 l = None |- _ =>
          rewrite (find_by_name_new n l e H eq_refl) end
    | alter _ _ _ !! _ => rewrite ?alter_last; rewrite lookup_last
    | lifecycle_stage (new_experiment ?e ?n ?w) =>
        change (lifecycle_stage (new_experiment e n w)) with active
    | ?l !! ?j =>
        match goal with H : find_by_name _ 0 l = Some (j, _) |- _ =>
          rewrite (find_by_name_0_lookup _ _ _ _ H) end
    end
  | destruct x eqn:? ].

Ltac wp_head :=
  lazymatch goal with
  | |- wp (mbind _ _) _ _ => apply wp_bind
  | |- wp (mret _) _ _ => apply wp_ret
  | |- wp (raise _) _ _ => apply wp_raise
  | |- wp (get _) _ _ => apply wp_get
  | |- wp (modify _) _ _ => apply wp_modify
  | |- wp (call _) _ _ => apply wp_call
  | |- wp (try_except _ _) _ _ => apply wp_try
  | |- wp (with_start_run _) _ _ => apply wp_with
  | |- wp (match ?x with _ => _ end) _ _ => wp_scrutinee x
  | |- wp (let (_, _) := ?x in _) _ _ => destruct x
  | |- wp ?m _ _ => let h := head m in unfold h
  end.

Ltac wp_go := repeat (wp_head; cbv beta iota; wnorm).


(** ** Experiment resolution *)

Lemma find_by_name_new_experiment env n es w :
  find_by_name n 0 es = None →
  find_by_name n 0 (es ++ [new_experiment env n w])
  = Some (length es, new_experiment env n w).
Proof. intros H. by apply find_by_name_new. Qed.

Lemma train_experiment_setup_spec env n w :
  let out := train_experiment_setup env n w in
  match find_by_name n 0 (experiments w) with
  | Some (i, _) => out.1 = Ok i ∧ experiments out.2 = experiments w
  | None =>
      out.1 = Ok (length (experiments w))
      ∧ experiments out.2 = experiments w ++ [new_experiment env n w]
  end.
Proof.
  change (wp (train_experiment_setup env n) (λ r w',
    match find_by_name n 0 (experiments w) with
    | Some (i, _) => r = Ok i ∧ experiments w' = experiments w
    | None => r = Ok (length (experiments w))
              ∧ experiments w' = experiments w ++ [new_experiment env n w]
    end) w).
  wp_go; try destruct p; done.
Qed.

Lemma main_experiment_setup_spec env n w :
  let out := main_experiment_setup env n w in
  match find_by_name n 0 (experiments w) with
  | Some x => out.1 = Ok (Some x) ∧ experiments out.2 = experiments w
  | None =>
      out.1 = Ok (Some (length (experiments w), new_experiment env n w))
      ∧ experiments out.2 = experiments w ++ [new_experiment env n w]
  end.
Proof.
  change (wp (main_experiment_setup env n) (λ r w',
    match find_by_name n 0 (experiments w) with
    | Some x => r = Ok (Some x) ∧ experiments w' = experiments w
    | None => r = Ok (Some (length (experiments w), new_experiment env n w))
              ∧ experiments w' = experiments w ++ [new_experiment env n w]
    end) w).
  wp_go.
  - by rewrite Heqo.
  - by rewrite (find_by_name_new_experiment _ _ _ _ Heqo).
Qed.

Lemma main_experiment_id_spec env n w :
  let out := main_experiment_id env n w in
  match find_by_name n 0 (experiments w) with
  | Some (i, _) => out.1 = Ok i ∧ experiments out.2 = experiments w
  | None =>
      out.1 = Ok (length (experiments w))
      ∧ experiments out.2 = experiments w ++ [new_experiment env n w]
  end.
Proof.
  change (wp (main_experiment_id env n) (λ r w',
    match find_by_name n 0 (experiments w) with
    | Some (i, _) => r = Ok i ∧ experiments w' = experiments w
    | None => r = Ok (length (experiments w))
              ∧ experiments w' = experiments w ++ [new_experiment env n w]
    end) w).
  wp_go; try destruct p; done.
Qed.

(** C1.  Resolving an experiment name is idempotent.  Whatever the world,
    both variants resolve the name to an experiment id; resolved again in
    any world that holds the registry the first resolution left (the same
    process later, or a fresh one), the name yields the same id, in both
    variants, and the registry is left as it was: the existing experiment
    is returned and none is created. *)
Theorem C1_experiment_resolution_idempotent (env : Env) (n : string) (w w2 : World) :
  experiments w2 = experiments (train_experiment_setup env n w).2 →
  ∃ id,
    (train_experiment_setup env n w).1 = Ok id
    ∧ (main_experiment_id env n w).1 = Ok id
    ∧ experiments (main_experiment_id env n w).2
      = experiments (train_experiment_setup env n w).2
    ∧ (train_experiment_setup env n w2).1 = Ok id
    ∧ experiments (train_experiment_setup env n w2).2 = experiments w2
    ∧ (main_experiment_id env n w2).1 = Ok id
    ∧ experiments (main_experiment_id env n w2).2 = experiments w2
    ∧ ∃ e, (main_experiment_setup env n w2).1 = Ok (Some (id, e))
           ∧ experiments w2 !! id = Some e ∧ exp_name e = n.
Proof.
  intros Hreg.
  pose proof (train_experiment_setup_spec env n w) as Ht.
  pose proof (main_experiment_id_spec env n w) as Hm.
  pose proof (train_experiment_setup_spec env n w2) as Ht2.
  pose proof (main_experiment_id_spec env n w2) as Hm2.
  pose proof (main_experiment_setup_spec env n w2) as Hs2.
  cbv zeta in *.
  destruct (find_by_name n 0 (experiments w)) as [[i e]|] eqn:Hfind.
  - destruct Ht as [Ht1 Hte], Hm as [Hm1 Hme].
    rewrite Hte in Hreg. rewrite Hreg, Hfind in Ht2, Hm2, Hs2.
    destruct Ht2, Hm2, Hs2. exists i.
    split_and!; try congruence.
    exists e. rewrite Hreg.
    destruct (find_by_name_lookup _ _ _ _ _ Hfind) as (k & -> & ? & ?). done.
  - destruct Ht as [Ht1 Hte], Hm as [Hm1 Hme].
    rewrite Hte in Hreg.
    rewrite Hreg, (find_by_name_new_experiment _ _ _ _ Hfind) in Ht2, Hm2, Hs2.
    destruct Ht2, Hm2, Hs2. exists (length (experiments w)).
    split_and!; try congruence.
    exists (new_experiment env n w). rewrite Hreg.
    split; [done|]. split; [apply lookup_last | done].
Qed.

Lemma C1_witness :
  ∃ id,
    (train_experiment_setup Sample.env "exp-A" Sample.world).1 = Ok id
    ∧ (train_experiment_setup Sample.env "exp-A"
         (fresh_process (train_experiment_setup Sample.env "exp-A" Sample.world).2)).1
      = Ok id.
Proof.
  destruct (C1_experiment_resolution_idempotent Sample.env "exp-A" Sample.world
              (fresh_process (train_experiment_setup Sample.env "exp-A" Sample.world).2))
    as (id & H1 & _ & _ & H2 & _).
  - reflexivity.
  - exists id. split; [exact H1 | exact H2].
Defined.

(** ** Dictionaries and frames *)

Lemma dict_get_None {V} (k : string) (d : list (string * V)) :
  dict_get k d = None ↔ k ∉ d.*1.
Proof.
  induction d as [|[k' v] d IH]; simpl.
  - split; [intros _; apply not_elem_of_nil | done].
  - destruct (String.eqb k' k) eqn:E.
    + apply String.eqb_eq in E as ->. split; [done|].
      intros []. apply list_elem_of_here.
    + apply String.eqb_neq in E. rewrite IH, not_elem_of_cons.
      split; [intros; split; [congruence | done] | by intros [_ ?]].
Qed.

Lemma dict_get_Some_elem {V} (k : string) (d : list (string * V)) v :
  dict_get k d = Some v → (k, v) ∈ d.
Proof.
  induction d as [|[k' v'] d IH]; simpl; [done|].
  destruct (String.eqb k' k) eqn:E.
  - apply String.eqb_eq in E as ->. intros [= ->]. apply list_elem_of_here.
  - intros H. apply list_elem_of_further. auto.
Qed.

Lemma missing_column (fr : H2OFrame) (column : string) :
  column ∉ col_names fr → dict_get column (types fr) = None.
Proof. intros H. by apply dict_get_None. Qed.

Lemma set_enum_column (fr : H2OFrame) (column t : string) :
  dict_get column (types fr) = Some t →
  dict_get column (types (set_enum column fr)) = Some "enum".
Proof.
  destruct fr as [cols]. unfold types, set_enum. simpl.
  induction cols as [|[n t'] cols IH]; simpl; [done|].
  destruct (String.eqb n column) eqn:E; simpl; rewrite E; [done|]. apply IH.
Qed.

Lemma set_enum_other (fr : H2OFrame) (column c : string) :
  c ≠ column →
  dict_get c (types (set_enum column fr)) = dict_get c (types fr).
Proof.
  intros Hne. destruct fr as [cols]. unfold types, set_enum. simpl.
  induction cols as [|[n t'] cols IH]; simpl; [done|].
  destruct (String.eqb n column) eqn:E; simpl.
  - apply String.eqb_eq in E as ->.
    destruct (String.eqb column c) eqn:E'; [|done].
    apply String.eqb_eq in E'. congruence.
  - destruct (String.eqb n c); [done|]. apply IH.
Qed.

Lemma set_enum_col_names (fr : H2OFrame) (column : string) :
  col_names (set_enum column fr) = col_names fr.
Proof.
  destruct fr as [cols]. unfold col_names, set_enum. simpl.
  induction cols as [|[n t'] cols IH]; simpl; [done|].
  destruct (String.eqb n column) eqn:E; simpl; [|by f_equal].
  apply String.eqb_eq in E as ->. by f_equal.
Qed.

(** ** Reading the calls of an execution *)

Ltac calls_norm :=
  unfold calls_since; wnorm;
  rewrite <- ?app_assoc; rewrite ?drop_app_length; cbn [app].

Ltac usable H :=
  unfold experiment_usable in H;
  match type of H with
  | match ?x with _ => _ end => destruct x as [[? ?]|] eqn:?
  end.

(** ** Failing before training *)

(** C2.  A target column the frame does not have makes both variants fail
    with the target error at the factorization of the target, before any
    training job is handed to the engine and before any run is started: the
    store holds the runs it held. *)
Theorem C2_missing_target_fails_before_training
    (env : Env) (target : string) (fr : H2OFrame) :
  target ∉ col_names fr →
  (∀ experiment_name models file_path w,
     dict_get file_path (fs w) = Some (Dataset fr) →
     fails_before_training target w
       (train env experiment_name target models file_path w))
  ∧ (∀ args w,
       arg_target args = target →
       dict_get "data/processed/train.csv" (fs w) = Some (Dataset fr) →
       experiment_usable (arg_name args) w →
       fails_before_training target w (main env args w)).
Proof.
  intros Hmiss%missing_column. split.
  - intros name models path w Hfile.
    change (wp (train env name target models path)
              (λ r w', fails_before_training target w (r, w')) w).
    wp_go. unfold fails_before_training. calls_norm.
    split_and!; [done | done | repeat constructor].
  - intros [name tgt models] w Htgt Hfile Huse. simpl in Htgt. subst tgt.
    change (wp (main env (mkArgs name target models))
              (λ r w', fails_before_training target w (r, w')) w).
    cbn [arg_name] in Huse. usable Huse.
    all: wp_go; unfold fails_before_training; calls_norm.
    all: split_and!; [done | done | repeat constructor].
Qed.

Lemma C2_witness :
  fails_before_training "nonexistent_col" Sample.world
    (train Sample.env "exp-A" "nonexistent_col" 5 "/data/train.csv" Sample.world)
  ∧ fails_before_training "nonexistent_col" Sample.world_cli
      (main Sample.env (default_args "nonexistent_col") Sample.world_cli).
Proof.
  assert (Hmiss : "nonexistent_col" ∉ col_names Sample.frame).
  { apply (proj1 (dict_get_None "nonexistent_col" (types Sample.frame))).
    reflexivity. }
  destruct (C2_missing_target_fails_before_training Sample.env
              "nonexistent_col" Sample.frame Hmiss) as [Ht Hm].
  split.
  - apply Ht. reflexivity.
  - apply Hm; [reflexivity | reflexivity | ].
    unfold experiment_usable. simpl. exact I.
Defined.

(** ** A missing input file *)

(** In [train] a missing input file is caught by the guard of line 26:
    the function raises after having created the tracking directory, set
    the tracking URI, initialised H2O and tested the path, and nothing
    else; the files, the registry and the runs are untouched. *)
Lemma train_missing_input_fails_fast env experiment_name target models file_path w :
  dict_get file_path (fs w) = None →
  let out := train env experiment_name target models file_path w in
  out.1 = Err (FileNotFoundError ("Training file not found: " +:+ file_path))
  ∧ calls_since w out.2
    = [EvMakedirs "/app/backend/mlruns";
       EvSetTrackingUri "file:/app/backend/mlruns";
       EvH2OInit;
       EvPathExists file_path]
  ∧ fs out.2 = fs w ∧ experiments out.2 = experiments w ∧ runs out.2 = runs w.
Proof.
  intros Hfile.
  change (wp (train env experiment_name target models file_path) (λ r w',
    r = Err (FileNotFoundError ("Training file not found: " +:+ file_path))
    ∧ calls_since w w'
      = [EvMakedirs "/app/backend/mlruns";
         EvSetTrackingUri "file:/app/backend/mlruns";
         EvH2OInit;
         EvPathExists file_path]
    ∧ fs w' = fs w ∧ experiments w' = experiments w ∧ runs w' = runs w) w).
  wp_go. calls_norm. done.
Qed.

Lemma train_missing_input_fails_fast_witness :
  (train Sample.env "exp-A" "claim" 5 "/data/train.csv" Sample.world_no_data).1
  = Err (FileNotFoundError "Training file not found: /data/train.csv")
  ∧ experiments
      (train Sample.env "exp-A" "claim" 5 "/data/train.csv" Sample.world_no_data).2
    = experiments Sample.world_no_data.
Proof.
  destruct (train_missing_input_fails_fast Sample.env "exp-A" "claim" 5
              "/data/train.csv" Sample.world_no_data eq_refl)
    as (H1 & _ & _ & H2 & _).
  split; [exact H1 | exact H2].
Defined.

(** C3, in [main].  When the dataset [main] reads is missing, the failure
    comes from the frame loader, after the experiment has been resolved
    in the registry and made the active one: the registry was called, and
    a name it did not know has been registered.  No run is started and no
    training job is handed to the engine. *)
Theorem C3_main_resolves_experiment_before_missing_input (env : Env) (args : Args)
    (w : World) :
  dict_get "data/processed/train.csv" (fs w) = None →
  experiment_usable (arg_name args) w →
  let out := main env args w in
  out.1 = Err (FileNotFoundError "data/processed/train.csv")
  ∧ List.filter tracking_store_call (calls_since w out.2)
    = [EvCreateExperiment (arg_name args);
       EvGetExperimentByName (arg_name args);
       EvSetExperiment (arg_name args)]
  ∧ last (calls_since w out.2) = Some (EvImportFile "data/processed/train.csv")
  ∧ (find_by_name (arg_name args) 0 (experiments w) = None →
     experiments out.2
     = experiments w ++ [new_experiment env (arg_name args) w])
  ∧ runs out.2 = runs w
  ∧ Forall (λ e, engine_call e = false ∧ run_call e = false) (calls_since w out.2).
Proof.
  intros Hfile Huse. destruct args as [name target models].
  change (wp (main env (mkArgs name target models)) (λ r w',
    r = Err (FileNotFoundError "data/processed/train.csv")
    ∧ List.filter tracking_store_call (calls_since w w')
      = [EvCreateExperiment name; EvGetExperimentByName name; EvSetExperiment name]
    ∧ last (calls_since w w') = Some (EvImportFile "data/processed/train.csv")
    ∧ (find_by_name name 0 (experiments w) = None →
       experiments w' = experiments w ++ [new_experiment env name w])
    ∧ runs w' = runs w
    ∧ Forall (λ e, engine_call e = false ∧ run_call e = false) (calls_since w w')) w).
  cbn [arg_name] in Huse. usable Huse.
  all: wp_go; calls_norm.
  all: split_and!; [done | done | done | congruence || done | done | repeat constructor].
Qed.

Lemma C3_witness :
  let out := main Sample.env (default_args "claim") Sample.world_no_data in
  out.1 = Err (FileNotFoundError "data/processed/train.csv")
  ∧ experiments out.2
    = [Sample.default_experiment;
       mkExperiment "automl-insurance" "file:///app/backend/mlruns/1" active]
  ∧ calls_since Sample.world_no_data out.2
    = [EvH2OInit;
       EvCreateExperiment "automl-insurance";
       EvGetExperimentByName "automl-insurance";
       EvSetExperiment "automl-insurance";
       EvPrint "Name: automl-insurance";
       EvPrint "Experiment_id: 1";
       EvPrint "Artifact Location: file:///app/backend/mlruns/1";
       EvPrint "Lifecycle_stage: active";
       EvPrint "Tracking uri: file:///app/mlruns";
       EvImportFile "data/processed/train.csv"].
Proof.
  destruct (C3_main_resolves_experiment_before_missing_input Sample.env
              (default_args "claim") Sample.world_no_data eq_refl I)
    as (H1 & _ & _ & H2 & _).
  split; [exact H1 |]. split; [exact (H2 eq_refl) | reflexivity].
Defined.

(** ** Runs are closed *)

Ltac runs_norm :=
  rewrite ?alter_last; rewrite ?fmap_app;
  cbn [fmap list_fmap run_status run_metrics run_artifacts run_experiment
       run_artifact_uri set_status add_metric add_artifact].

Ltac calls_leaf :=
  rewrite <- ?app_assoc; rewrite ?drop_app_length; cbn [app].

Ltac closes_leaf :=
  calls_leaf; cbn [List.filter run_call closing_status last]; runs_norm;
  lazymatch goal with
  | |- ([] = [] ∧ _) ∨ _ => left; split; reflexivity
  | |- _ => right; split_and!; reflexivity
  end.

(** C6.  Whatever the inputs and whatever the collaborators answer, an
    execution of either variant that starts a run closes it, exactly once
    and as its last call, [FINISHED] when the variant returns and [FAILED]
    when it raises; the other runs keep their status and no run is left
    active.  An execution that fails before the [with] block starts no
    run. *)
Theorem C6_run_closed_on_every_exit_path (env : Env) (w : World) :
  (∀ experiment_name target models file_path,
     closes_its_run w (train env experiment_name target models file_path w))
  ∧ (∀ args, closes_its_run w (main env args w)).
Proof.
  split.
  - intros name target models path.
    change (wp (train env name target models path)
              (λ r w', closes_its_run w (r, w')) w).
    unfold closes_its_run, calls_since; cbv zeta; cbn [fst snd].
    wp_go.
    all: closes_leaf.
  - intros [name target models].
    change (wp (main env (mkArgs name target models))
              (λ r w', closes_its_run w (r, w')) w).
    unfold closes_its_run, calls_since; cbv zeta; cbn [fst snd].
    wp_go.
    all: closes_leaf.
Qed.

(** ** What the engine is asked *)

Ltac policy_ok :=
  cbn [policy_call automl_policy max_models seed balance_classes sort_metric
       verbosity exclude_algos];
  first [ exact I
        | split_and!; first [ reflexivity | eapply set_enum_column; eassumption ] ].

Ltac policy_leaf :=
  calls_leaf; cbn [List.filter engine_call length];
  split;
  [ repeat (constructor; [policy_ok|]); constructor
  | first [ reflexivity | intros [=] ] ].

(** C7.  Whatever the inputs and whatever the collaborators answer, every
    job either variant hands to the training engine carries the fixed
    policy: the candidate-model count bounded by the budget given, seed 42,
    class balancing enabled, ranking by logarithmic loss, the families GLM
    and DRF excluded; its response column is the target, and the frame it
    trains on has the target column factorized to a categorical.  A
    variant that returns has handed the engine exactly one job. *)
Theorem C7_engine_called_under_fixed_policy (env : Env) (w : World) :
  (∀ experiment_name target models file_path,
     let out := train env experiment_name target models file_path w in
     Forall (policy_call models target) (calls_since w out.2)
     ∧ (out.1 = Ok tt →
        length (List.filter engine_call (calls_since w out.2)) = 1))
  ∧ (∀ args,
       let out := main env args w in
       Forall (policy_call (arg_models args) (arg_target args)) (calls_since w out.2)
       ∧ (out.1 = Ok tt →
          length (List.filter engine_call (calls_since w out.2)) = 1)).
Proof.
  split.
  - intros name target models path.
    change (wp (train env name target models path) (λ r w',
      Forall (policy_call models target) (drop (length (trace w)) (trace w'))
      ∧ (r = Ok tt →
         length (List.filter engine_call (drop (length (trace w)) (trace w'))) = 1)) w).
    wp_go.
    all: policy_leaf.
  - intros [name target models].
    change (wp (main env (mkArgs name target models)) (λ r w',
      Forall (policy_call models target) (drop (length (trace w)) (trace w'))
      ∧ (r = Ok tt →
         length (List.filter engine_call (drop (length (trace w)) (trace w'))) = 1)) w).
    wp_go.
    all: policy_leaf.
Qed.

(** ** The predictor columns *)

Lemma filter_all {A} (P : A → Prop) `{∀ x, Decision (P x)} (l : list A) :
  Forall P l → filter P l = l.
Proof.
  induction 1 as [|x l Hx _ IH]; [done|].
  rewrite filter_cons_True by done. by f_equal.
Qed.

Lemma predictors_of_elem (fr : H2OFrame) (target c : string) :
  c ∈ predictors_of fr target ↔ c ∈ col_names fr ∧ c ≠ target.
Proof. unfold predictors_of. rewrite list_elem_of_filter. tauto. Qed.

Lemma predictors_of_split (fr : H2OFrame) (target : string) (l1 l2 : list string) :
  col_names fr = l1 ++ target :: l2 → target ∉ l1 → target ∉ l2 →
  predictors_of fr target = l1 ++ l2.
Proof.
  intros Hcols H1 H2. unfold predictors_of. rewrite Hcols.
  rewrite filter_app, filter_cons_False by (intros Hne; by apply Hne).
  rewrite !filter_all; [done | |].
  - apply Forall_forall. intros x Hx ->. done.
  - apply Forall_forall. intros x Hx ->. done.
Qed.

Lemma predictors_of_no_target (fr : H2OFrame) (target : string) :
  target ∉ col_names fr → predictors_of fr target = col_names fr.
Proof.
  intros H. unfold predictors_of. apply filter_all.
  apply Forall_forall. intros x Hx ->. done.
Qed.

Ltac predictors_ok :=
  cbn [predictors_call];
  first [ exact I | eexists; split; [eassumption | reflexivity] ].

Ltac predictors_leaf :=
  calls_leaf; repeat (constructor; [predictors_ok|]); constructor.

(** C9.  The predictor list is the frame's column list without the target
    and nothing else: a column is a predictor if and only if it is a column
    of the frame other than the target; the predictors come in the frame's
    column order (they are what is left of the column list when the target
    is taken out); and this list, computed from the frame as loaded, is the
    one every training job of either variant is given. *)
Theorem C9_predictors_are_the_other_columns (env : Env) (w : World) :
  (∀ fr target,
     (∀ c, c ∈ predictors_of fr target ↔ c ∈ col_names fr ∧ c ≠ target)
     ∧ predictors_of fr target `sublist_of` col_names fr
     ∧ (∀ l1 l2, col_names fr = l1 ++ target :: l2 →
                 target ∉ l1 → target ∉ l2 →
                 predictors_of fr target = l1 ++ l2)
     ∧ (target ∉ col_names fr → predictors_of fr target = col_names fr))
  ∧ (∀ experiment_name target models file_path,
       Forall (predictors_call (fs w) file_path target)
         (calls_since w (train env experiment_name target models file_path w).2))
  ∧ (∀ args,
       Forall (predictors_call (fs w) "data/processed/train.csv" (arg_target args))
         (calls_since w (main env args w).2)).
Proof.
  split_and!.
  - intros fr target. split_and!.
    + intros c. apply predictors_of_elem.
    + apply sublist_filter.
    + apply predictors_of_split.
    + apply predictors_of_no_target.
  - intros name target models path.
    change (wp (train env name target models path) (λ r w',
      Forall (predictors_call (fs w) path target)
        (drop (length (trace w)) (trace w'))) w).
    wp_go.
    all: predictors_leaf.
  - intros [name target models].
    change (wp (main env (mkArgs name target models)) (λ r w',
      Forall (predictors_call (fs w) "data/processed/train.csv" target)
        (drop (length (trace w)) (trace w'))) w).
    wp_go.
    all: predictors_leaf.
Qed.

(** ** Paths *)

Lemma last_char_app (a b : string) :
  Py.last_char (a +:+ b)
  = match Py.last_char b with Some c => Some c | None => Py.last_char a end.
Proof.
  induction a as [|c a IH].
  - change ("" +:+ b) with b. by destruct (Py.last_char b).
  - change (String c a +:+ b) with (String c (a +:+ b)).
    cbn [Py.last_char]. rewrite IH.
    by destruct (Py.last_char b), (Py.last_char a).
Qed.

Lemma last_char_join (a b : string) (c : ascii) :
  Py.last_char b = Some c → Py.last_char (Py.join a b) = Some c.
Proof.
  intros Hb. unfold Py.join.
  destruct (Py.startswith b "/"); [done|].
  destruct (Py.last_char a) as [d|]; [|done].
  destruct (Py.is_sep d); repeat rewrite last_char_app; by rewrite Hb.
Qed.

(** The leaderboard export never lands on the column-type snapshot. *)
Lemma leaderboard_path_not_snapshot (model_path file_path : string) :
  String.eqb (Py.join model_path "leaderboard.csv")
             (Py.join (Py.dirname file_path) "train_col_types.json") = false.
Proof.
  apply String.eqb_neq. intros Heq.
  apply (f_equal Py.last_char) in Heq.
  rewrite (last_char_join _ "leaderboard.csv" "v"),
          (last_char_join _ "train_col_types.json" "n") in Heq by reflexivity.
  discriminate.
Qed.

Lemma lb_path_not_snapshot (rest : string) :
  String.eqb ("mlruns/" +:+ rest) "data/processed/train_col_types.json" = false.
Proof. reflexivity. Qed.

(** ** The column-type snapshot *)

Ltac snapshot_leaf :=
  calls_leaf; cbn [List.filter snapshot_or_factor_call];
  rewrite ?leaderboard_path_not_snapshot, ?lb_path_not_snapshot, ?String.eqb_refl;
  split_and!; first [ reflexivity | intros ? ?; eexists; split; [reflexivity | congruence] ].

(** C4.  The column-type snapshot is taken from the frame as loaded,
    before the target is factorized.  In both variants, once the dataset
    is loaded, the snapshot write and the factorization of the target are
    made in this order, once each; whatever happens afterwards, the
    snapshot file holds the types of the loaded frame, so that the type it
    records for the target is the raw one and not the categorical the
    engine is given. *)
Theorem C4_snapshot_taken_before_factorization (env : Env) (fr : H2OFrame) :
  (∀ experiment_name target models file_path w,
     dict_get file_path (fs w) = Some (Dataset fr) →
     let out := train env experiment_name target models file_path w in
     List.filter snapshot_or_factor_call (calls_since w out.2)
     = [EvJsonDump (col_type_path file_path) (types fr); EvAsFactor target]
     ∧ dict_get (col_type_path file_path) (fs out.2) = Some (JsonTypes (types fr))
     ∧ ∀ t, dict_get target (types fr) = Some t →
            ∃ tys, dict_get (col_type_path file_path) (fs out.2) = Some (JsonTypes tys)
                   ∧ dict_get target tys = Some t)
  ∧ (∀ args w,
       dict_get "data/processed/train.csv" (fs w) = Some (Dataset fr) →
       experiment_usable (arg_name args) w →
       let out := main env args w in
       List.filter snapshot_or_factor_call (calls_since w out.2)
       = [EvJsonDump "data/processed/train_col_types.json" (types fr);
          EvAsFactor (arg_target args)]
       ∧ dict_get "data/processed/train_col_types.json" (fs out.2)
         = Some (JsonTypes (types fr))
       ∧ ∀ t, dict_get (arg_target args) (types fr) = Some t →
              ∃ tys, dict_get "data/processed/train_col_types.json" (fs out.2)
                     = Some (JsonTypes tys)
                     ∧ dict_get (arg_target args) tys = Some t).
Proof.
  split.
  - intros name target models path w Hfile.
    change (wp (train env name target models path) (λ r w',
      List.filter snapshot_or_factor_call (drop (length (trace w)) (trace w'))
      = [EvJsonDump (Py.join (Py.dirname path) "train_col_types.json") (types fr);
         EvAsFactor target]
      ∧ dict_get (Py.join (Py.dirname path) "train_col_types.json") (fs w')
        = Some (JsonTypes (types fr))
      ∧ ∀ t, dict_get target (types fr) = Some t →
             ∃ tys, dict_get (Py.join (Py.dirname path) "train_col_types.json") (fs w')
                    = Some (JsonTypes tys)
                    ∧ dict_get target tys = Some t) w).
    wp_go.
    all: snapshot_leaf.
  - intros [name target models] w Hfile Huse.
    change (wp (main env (mkArgs name target models)) (λ r w',
      List.filter snapshot_or_factor_call (drop (length (trace w)) (trace w'))
      = [EvJsonDump "data/processed/train_col_types.json" (types fr);
         EvAsFactor target]
      ∧ dict_get "data/processed/train_col_types.json" (fs w')
        = Some (JsonTypes (types fr))
      ∧ ∀ t, dict_get target (types fr) = Some t →
             ∃ tys, dict_get "data/processed/train_col_types.json" (fs w')
                    = Some (JsonTypes tys)
                    ∧ dict_get target tys = Some t) w).
    cbn [arg_name] in Huse. usable Huse.
    all: wp_go.
    all: snapshot_leaf.
Qed.

Lemma C4_witness :
  let out := train Sample.env "exp-A" "claim" 5 "/data/train.csv" Sample.world in
  dict_get "/data/train_col_types.json" (fs out.2)
  = Some (JsonTypes [("age", "int"); ("income", "real"); ("claim", "int")])
  ∧ ∃ tys, dict_get "/data/train_col_types.json" (fs out.2) = Some (JsonTypes tys)
           ∧ dict_get "claim" tys = Some "int".
Proof.
  destruct (C4_snapshot_taken_before_factorization Sample.env Sample.frame)
    as [Ht _].
  destruct (Ht "exp-A" "claim" 5%Z "/data/train.csv" Sample.world eq_refl)
    as (_ & H1 & H2).
  split; [exact H1 | exact (H2 "int" eq_refl)].
Defined.

(** ** The leaderboard export *)

Ltac in_cases H :=
  lazymatch type of H with
  | _ ∨ _ => destruct H as [H|H]; [try discriminate H | in_cases H]
  | False => destruct H
  | _ => idtac
  end.

Ltac in_list :=
  cbn [In]; repeat first [ left; reflexivity | right ].

Ltac skip_leaf :=
  calls_leaf; cbn [In List.filter csv_call last];
  let Hin := fresh "Hin" in let Hsw := fresh "Hsw" in
  intros Hin Hsw; in_cases Hin; simplify_eq;
  first
  [ congruence
  | runs_norm; rewrite ?lookup_last;
    split_and!;
    first [ reflexivity
          | eexists; split; reflexivity
          | in_list ] ].

(** C10.  In [train], when the URI the tracking store gives for the model
    artifact does not begin with [file:/], the leaderboard export is
    skipped without an error: the function returns, it has written no CSV
    (the only file it wrote is the column-type snapshot), it has printed
    the notice of line 88, and its run, closed last, is [FINISHED]. *)
Theorem C10_unexpected_artifact_uri_skips_leaderboard (env : Env)
    (experiment_name target : string) (models : Z) (file_path : string)
    (w : World) (r : nat) (uri : string) :
  In (EvGetArtifactUri r "model" uri)
     (calls_since w (train env experiment_name target models file_path w).2) →
  Py.startswith uri "file:/" = false →
  let out := train env experiment_name target models file_path w in
  out.1 = Ok tt
  ∧ List.filter csv_call (calls_since w out.2) = []
  ∧ (∃ fr, dict_get file_path (fs w) = Some (Dataset fr)
           ∧ fs out.2 = (col_type_path file_path, JsonTypes (types fr)) :: fs w)
  ∧ r = length (runs w)
  ∧ run_status <$> runs out.2 !! r = Some FINISHED
  ∧ last (calls_since w out.2) = Some (EvEndRun r FINISHED)
  ∧ In (EvPrint ("[!] Unexpected artifact URI: " +:+ uri)) (calls_since w out.2).
Proof.
  cbv zeta. revert r uri.
  change (wp (train env experiment_name target models file_path) (λ res w',
    ∀ r uri,
    In (EvGetArtifactUri r "model" uri) (drop (length (trace w)) (trace w')) →
    Py.startswith uri "file:/" = false →
    res = Ok tt
    ∧ List.filter csv_call (drop (length (trace w)) (trace w')) = []
    ∧ (∃ fr, dict_get file_path (fs w) = Some (Dataset fr)
             ∧ fs w' = (Py.join (Py.dirname file_path) "train_col_types.json",
                        JsonTypes (types fr)) :: fs w)
    ∧ r = length (runs w)
    ∧ run_status <$> runs w' !! r = Some FINISHED
    ∧ last (drop (length (trace w)) (trace w')) = Some (EvEndRun r FINISHED)
    ∧ In (EvPrint ("[!] Unexpected artifact URI: " +:+ uri))
         (drop (length (trace w)) (trace w'))) w).
  wp_go.
  all: intros r uri; skip_leaf.
Qed.

Lemma C10_witness :
  let out := train Sample.env "exp-A" "claim" 5 "/data/train.csv" Sample.world_bucket in
  out.1 = Ok tt
  ∧ List.filter csv_call (calls_since Sample.world_bucket out.2) = []
  ∧ run_status <$> runs out.2 !! 0%nat = Some FINISHED.
Proof.
  assert (Hin : In (EvGetArtifactUri 0 "model" "s3://bucket/exp-A/0/artifacts/model")
                   (calls_since Sample.world_bucket
                      (train Sample.env "exp-A" "claim" 5 "/data/train.csv"
                         Sample.world_bucket).2)).
  { vm_compute. do 17 right. left. reflexivity. }
  destruct (C10_unexpected_artifact_uri_skips_leaderboard Sample.env "exp-A" "claim"
              5 "/data/train.csv" Sample.world_bucket 0
              "s3://bucket/exp-A/0/artifacts/model" Hin eq_refl)
    as (H1 & H2 & _ & _ & H3 & _).
  split; [exact H1 |]. split; [exact H2 | exact H3].
Defined.

(** ** What a successful run has published *)





Ltac resolved_id env :=
  match goal with
  | H : find_by_name ?n 0 (experiments ?w) = _ |- _ =>
      let S := fresh "S" in
      pose proof (main_experiment_id_spec env n w) as S;
      cbv zeta in S; rewrite H in S; apply S
  end.






(** ** Where the leaderboard goes *)

(** C5, in [main].  With an experiment whose artifacts live outside the
    tracking directory, [main] logs the model, asks the store where the
    model artifact is, and then writes the leaderboard to the path it
    builds from the experiment id and the run id under [mlruns/], which is
    not under the location the store answered.  When the directory it aims
    at does not exist the write fails: the run, whose model is published,
    is closed as [FAILED]; when it does exist the export lands away from
    the model. *)
Theorem C5_main_leaderboard_path_ignores_model_location :
  (let out := main Sample.env (default_args "claim") Sample.world_relocated in
   out.1 = Ok tt
   ∧ List.filter export_call (calls_since Sample.world_relocated out.2)
     = [EvLogModel 0 (leader Sample.aml) "model";
        EvGetArtifactUri 0 "model" "file:///srv/artifacts/insurance/0/artifacts/model";
        EvToCsv "mlruns/1/0/artifacts/model/leaderboard.csv"
          [["model_id"; "logloss"; "auc"];
           ["GBM_1"; "0.25"; "0.9"];
           ["XGBoost_2"; "0.31"; "0.85"]]])
  ∧ (let out := main Sample.env_no_csv_dir (default_args "claim") Sample.world_relocated in
     out.1 = Err (OSError "mlruns/1/0/artifacts/model/leaderboard.csv")
     ∧ runs out.2
       = [mkRun 1 FAILED "file:///srv/artifacts/insurance/0/artifacts"
            [("log_loss", logloss (leader Sample.aml)); ("AUC", auc (leader Sample.aml))]
            [("model", ModelFile (leader Sample.aml))]]
     ∧ List.filter export_call (calls_since Sample.world_relocated out.2)
       = [EvLogModel 0 (leader Sample.aml) "model";
          EvGetArtifactUri 0 "model" "file:///srv/artifacts/insurance/0/artifacts/model";
          EvToCsv "mlruns/1/0/artifacts/model/leaderboard.csv"
            [["model_id"; "logloss"; "auc"];
             ["GBM_1"; "0.25"; "0.9"];
             ["XGBoost_2"; "0.31"; "0.85"]]]).
Proof. split; cbv zeta; split_and!; reflexivity. Qed.

(** * Further properties of the script *)

(** ** The export follows the model *)

Ltac export_leaf env :=
  calls_leaf; cbn [List.filter export_call];
  first
  [ exact I
  | split_and?;
    first [ reflexivity
          | eassumption
          | eexists; split; [resolved_id env | reflexivity] ] ].

(** In every execution of [train] the export calls are made in the order
    model, model URI, leaderboard; the leaderboard is written only when the
    URI the store answered begins with [file:/], and then to
    [leaderboard.csv] under that URI with every [file:] taken out. *)
Lemma train_export_follows_model (env : Env) (experiment_name target : string)
    (models : Z) (file_path : string) (w : World) :
  train_export_shape
    (calls_since w (train env experiment_name target models file_path w).2).
Proof.
  unfold train_export_shape, calls_since, leaderboard_path.
  change (wp (train env experiment_name target models file_path) (λ _ w',
    match List.filter export_call (drop (length (trace w)) (trace w')) with
    | [] => True
    | [EvLogModel _ _ ap] => ap = "model"
    | [EvLogModel r _ ap; EvGetArtifactUri r' ap' _] =>
        ap = "model" ∧ ap' = "model" ∧ r' = r
    | [EvLogModel r _ ap; EvGetArtifactUri r' ap' uri; EvToCsv p _] =>
        ap = "model" ∧ ap' = "model" ∧ r' = r
        ∧ Py.startswith uri "file:/" = true
        ∧ p = Py.join (Py.replace uri "file:" "") "leaderboard.csv"
    | _ => False
    end) w).
  wp_go.
  all: export_leaf env.
Qed.

(** In every execution of [main] the export calls are made in the order
    model, model URI, leaderboard, and the leaderboard is written to
    [mlruns/<experiment id>/<run id>/artifacts/model/leaderboard.csv]: the
    path is built from the two ids and does not depend on the URI the
    store answered. *)
Lemma main_export_path_from_ids (env : Env) (args : Args) (w : World) :
  main_export_shape (main_experiment_id env (arg_name args) w).1
    (calls_since w (main env args w).2).
Proof.
  destruct args as [name target models].
  unfold main_export_shape, calls_since. cbn [arg_name].
  change (wp (main env (mkArgs name target models)) (λ _ w',
    match List.filter export_call (drop (length (trace w)) (trace w')) with
    | [] => True
    | [EvLogModel _ _ ap] => ap = "model"
    | [EvLogModel r _ ap; EvGetArtifactUri r' ap' _] =>
        ap = "model" ∧ ap' = "model" ∧ r' = r
    | [EvLogModel r _ ap; EvGetArtifactUri r' ap' uri; EvToCsv p _] =>
        ap = "model" ∧ ap' = "model" ∧ r' = r
        ∧ ∃ i, (main_experiment_id env name w).1 = Ok i ∧ p = lb_path i r
    | _ => False
    end) w).
  wp_go.
  all: export_leaf env.
Qed.

(** ** Only the run of the execution is touched *)

Lemma take_all {A} (l : list A) : take (length l) l = l.
Proof. by apply take_ge. Qed.

Ltac own_ok := cbn [own_run_call]; first [ exact I | reflexivity ].

Ltac isolation_leaf :=
  calls_leaf; rewrite ?alter_last;
  split_and!;
  [ repeat (constructor; [own_ok|]); constructor
  | first [ apply take_all | apply take_app_length ]
  | first [ apply take_all | apply take_app_length ]
  | rewrite ?length_app; cbn [length]; lia
  | rewrite ?length_app; cbn [length]; lia ].

(** Both variants address, in the tracking store, only the run they
    start: every call that names a run names the next run of the store;
    the runs and the experiments the store held are left as they were, and
    at most one run and one experiment are added. *)
Lemma only_own_run_is_touched (env : Env) (w : World) :
  (∀ experiment_name target models file_path,
     let out := train env experiment_name target models file_path w in
     Forall (own_run_call (length (runs w))) (calls_since w out.2)
     ∧ take (length (runs w)) (runs out.2) = runs w
     ∧ take (length (experiments w)) (experiments out.2) = experiments w
     ∧ (length (runs out.2) ≤ S (length (runs w)))%nat
     ∧ (length (experiments out.2) ≤ S (length (experiments w)))%nat)
  ∧ (∀ args,
       let out := main env args w in
       Forall (own_run_call (length (runs w))) (calls_since w out.2)
       ∧ take (length (runs w)) (runs out.2) = runs w
       ∧ take (length (experiments w)) (experiments out.2) = experiments w
       ∧ (length (runs out.2) ≤ S (length (runs w)))%nat
       ∧ (length (experiments out.2) ≤ S (length (experiments w)))%nat).
Proof.
  split.
  - intros name target models path.
    change (wp (train env name target models path) (λ _ w',
      Forall (own_run_call (length (runs w))) (drop (length (trace w)) (trace w'))
      ∧ take (length (runs w)) (runs w') = runs w
      ∧ take (length (experiments w)) (experiments w') = experiments w
      ∧ (length (runs w') ≤ S (length (runs w)))%nat
      ∧ (length (experiments w') ≤ S (length (experiments w)))%nat) w).
    wp_go.
    all: isolation_leaf.
  - intros [name target models].
    change (wp (main env (mkArgs name target models)) (λ _ w',
      Forall (own_run_call (length (runs w))) (drop (length (trace w)) (trace w'))
      ∧ take (length (runs w)) (runs w') = runs w
      ∧ take (length (experiments w)) (experiments w') = experiments w
      ∧ (length (runs w') ≤ S (length (runs w)))%nat
      ∧ (length (experiments w') ≤ S (length (experiments w)))%nat) w).
    wp_go.
    all: isolation_leaf.
Qed.

(** ** The tracking URI *)


(** ** When the engine fails *)

Ltac engine_failure_leaf :=
  let Hres := fresh "Hres" in
  calls_leaf; cbn [List.filter export_call last];
  intros Hres;
  first
  [ discriminate Hres
  | clear Hres; eexists _, _;
    split_and!;
    [ reflexivity
    | eassumption
    | runs_norm; rewrite lookup_last; reflexivity
    | reflexivity
    | reflexivity
    | rewrite ?String.eqb_refl;
      repeat match goal with H : String.eqb _ _ = _ |- _ => rewrite H end;
      reflexivity
    | reflexivity
    | reflexivity ] ].

(** When either variant raises the engine's error, the engine was asked
    and failed; the run the variant had started is closed, as the last
    call, as [FAILED]; it carries no metric and no model, only, in
    [train], the two input artifacts logged before training; nothing of
    the export was attempted. *)
Lemma engine_failure_leaves_failed_run (env : Env) (w : World) :
  (∀ experiment_name target models file_path,
     let out := train env experiment_name target models file_path w in
     out.1 = Err TrainingError →
     ∃ fr run,
       dict_get file_path (fs w) = Some (Dataset fr)
       ∧ automl env (automl_policy models) (predictors_of fr target) target
           (set_enum target fr) = None
       ∧ runs out.2 !! length (runs w) = Some run
       ∧ run_status run = FAILED
       ∧ run_metrics run = []
       ∧ run_artifacts run
         = [(Py.join "input_data" (Py.basename file_path),
             if String.eqb (col_type_path file_path) file_path
             then JsonTypes (types fr) else Dataset fr);
            (Py.join "input_data" (Py.basename (col_type_path file_path)),
             JsonTypes (types fr))]
       ∧ last (calls_since w out.2) = Some (EvEndRun (length (runs w)) FAILED)
       ∧ List.filter export_call (calls_since w out.2) = [])
  ∧ (∀ args,
       let out := main env args w in
       out.1 = Err TrainingError →
       ∃ fr run,
         dict_get "data/processed/train.csv" (fs w) = Some (Dataset fr)
         ∧ automl env (automl_policy (arg_models args))
             (predictors_of fr (arg_target args)) (arg_target args)
             (set_enum (arg_target args) fr) = None
         ∧ runs out.2 !! length (runs w) = Some run
         ∧ run_status run = FAILED
         ∧ run_metrics run = []
         ∧ run_artifacts run = []
         ∧ last (calls_since w out.2) = Some (EvEndRun (length (runs w)) FAILED)
         ∧ List.filter export_call (calls_since w out.2) = []).
Proof.
  split.
  - intros name target models path. cbv zeta. unfold col_type_path.
    change (wp (train env name target models path) (λ res w',
      res = Err TrainingError →
      ∃ fr run,
        dict_get path (fs w) = Some (Dataset fr)
        ∧ automl env (automl_policy models) (predictors_of fr target) target
            (set_enum target fr) = None
        ∧ runs w' !! length (runs w) = Some run
        ∧ run_status run = FAILED
        ∧ run_metrics run = []
        ∧ run_artifacts run
          = [(Py.join "input_data" (Py.basename path),
              if String.eqb (Py.join (Py.dirname path) "train_col_types.json") path
              then JsonTypes (types fr) else Dataset fr);
             (Py.join "input_data"
                (Py.basename (Py.join (Py.dirname path) "train_col_types.json")),
              JsonTypes (types fr))]
        ∧ last (drop (length (trace w)) (trace w'))
          = Some (EvEndRun (length (runs w)) FAILED)
        ∧ List.filter export_call (drop (length (trace w)) (trace w')) = []) w).
    wp_go.
    all: engine_failure_leaf.
  - intros [name target models]. cbv zeta. cbn [arg_name arg_target arg_models].
    change (wp (main env (mkArgs name target models)) (λ res w',
      res = Err TrainingError →
      ∃ fr run,
        dict_get "data/processed/train.csv" (fs w) = Some (Dataset fr)
        ∧ automl env (automl_policy models) (predictors_of fr target) target
            (set_enum target fr) = None
        ∧ runs w' !! length (runs w) = Some run
        ∧ run_status run = FAILED
        ∧ run_metrics run = []
        ∧ run_artifacts run = []
        ∧ last (drop (length (trace w)) (trace w'))
          = Some (EvEndRun (length (runs w)) FAILED)
        ∧ List.filter export_call (drop (length (trace w)) (trace w')) = []) w).
    wp_go.
    all: engine_failure_leaf.
Qed.

Lemma engine_failure_leaves_failed_run_witness :
  let out := train Sample.env_engine_down "exp-A" "claim" 5 "/data/train.csv"
               Sample.world in
  out.1 = Err TrainingError
  ∧ ∃ run, runs out.2 !! 0%nat = Some run
           ∧ run_status run = FAILED ∧ run_metrics run = [].
Proof.
  destruct (proj1 (engine_failure_leaves_failed_run Sample.env_engine_down Sample.world)
              "exp-A" "claim" 5%Z "/data/train.csv" eq_refl)
    as (fr & run & _ & _ & H1 & H2 & H3 & _).
  split; [reflexivity|]. exists run. split_and!; [exact H1 | exact H2 | exact H3].
Defined.

(** ** What a successful run asks of the store *)

Ltac sequence_leaf :=
  let Hres := fresh "Hres" in
  calls_leaf; cbn [List.filter run_store_call];
  intros Hres;
  first
  [ discriminate Hres
  | clear Hres; eexists _, _, _;
    split_and!; [ reflexivity | eassumption | reflexivity ] ].

(** A variant that returns has addressed its run in the order of the
    source: the run is started, [train] logs the input file and the
    snapshot, then (after training) the two metrics are logged, the model
    is logged, the model URI is asked for, and the run is ended as
    [FINISHED]. *)
Lemma store_calls_of_a_successful_run (env : Env) (w : World) :
  (∀ experiment_name target models file_path,
     let out := train env experiment_name target models file_path w in
     let r := length (runs w) in
     out.1 = Ok tt →
     ∃ fr aml uri,
       dict_get file_path (fs w) = Some (Dataset fr)
       ∧ automl env (automl_policy models) (predictors_of fr target) target
           (set_enum target fr) = Some aml
       ∧ List.filter run_store_call (calls_since w out.2)
         = [EvStartRun r;
            EvLogArtifact r file_path "input_data";
            EvLogArtifact r (col_type_path file_path) "input_data";
            EvLogMetric r "log_loss" (logloss (leader aml));
            EvLogMetric r "AUC" (auc (leader aml));
            EvLogModel r (leader aml) "model";
            EvGetArtifactUri r "model" uri;
            EvEndRun r FINISHED])
  ∧ (∀ args,
       let out := main env args w in
       let r := length (runs w) in
       out.1 = Ok tt →
       ∃ fr aml uri,
         dict_get "data/processed/train.csv" (fs w) = Some (Dataset fr)
         ∧ automl env (automl_policy (arg_models args))
             (predictors_of fr (arg_target args)) (arg_target args)
             (set_enum (arg_target args) fr) = Some aml
         ∧ List.filter run_store_call (calls_since w out.2)
           = [EvStartRun r;
              EvLogMetric r "log_loss" (logloss (leader aml));
              EvLogMetric r "AUC" (auc (leader aml));
              EvLogModel r (leader aml) "model";
              EvGetArtifactUri r "model" uri;
              EvEndRun r FINISHED]).
Proof.
  split.
  - intros name target models path. cbv zeta. unfold col_type_path.
    change (wp (train env name target models path) (λ res w',
      res = Ok tt →
      ∃ fr aml uri,
        dict_get path (fs w) = Some (Dataset fr)
        ∧ automl env (automl_policy models) (predictors_of fr target) target
            (set_enum target fr) = Some aml
        ∧ List.filter run_store_call (drop (length (trace w)) (trace w'))
          = [EvStartRun (length (runs w));
             EvLogArtifact (length (runs w)) path "input_data";
             EvLogArtifact (length (runs w))
               (Py.join (Py.dirname path) "train_col_types.json") "input_data";
             EvLogMetric (length (runs w)) "log_loss" (logloss (leader aml));
             EvLogMetric (length (runs w)) "AUC" (auc (leader aml));
             EvLogModel (length (runs w)) (leader aml) "model";
             EvGetArtifactUri (length (runs w)) "model" uri;
             EvEndRun (length (runs w)) FINISHED]) w).
    wp_go.
    all: sequence_leaf.
  - intros [name target models]. cbv zeta. cbn [arg_name arg_target arg_models].
    change (wp (main env (mkArgs name target models)) (λ res w',
      res = Ok tt →
      ∃ fr aml uri,
        dict_get "data/processed/train.csv" (fs w) = Some (Dataset fr)
        ∧ automl env (automl_policy models) (predictors_of fr target) target
            (set_enum target fr) = Some aml
        ∧ List.filter run_store_call (drop (length (trace w)) (trace w'))
          = [EvStartRun (length (runs w));
             EvLogMetric (length (runs w)) "log_loss" (logloss (leader aml));
             EvLogMetric (length (runs w)) "AUC" (auc (leader aml));
             EvLogModel (length (runs w)) (leader aml) "model";
             EvGetArtifactUri (length (runs w)) "model" uri;
             EvEndRun (length (runs w)) FINISHED]) w).
    wp_go.
    all: sequence_leaf.
Qed.

Lemma store_calls_of_a_successful_run_witness :
  (train Sample.env "exp-A" "claim" 5 "/data/train.csv" Sample.world).1 = Ok tt
  ∧ ∃ fr aml uri,
      dict_get "/data/train.csv" (fs Sample.world) = Some (Dataset fr)
      ∧ automl Sample.env (automl_policy 5) (predictors_of fr "claim") "claim"
          (set_enum "claim" fr) = Some aml
      ∧ List.filter run_store_call
          (calls_since Sample.world
             (train Sample.env "exp-A" "claim" 5 "/data/train.csv" Sample.world).2)
        = [EvStartRun 0;
           EvLogArtifact 0 "/data/train.csv" "input_data";
           EvLogArtifact 0 (col_type_path "/data/train.csv") "input_data";
           EvLogMetric 0 "log_loss" (logloss (leader aml));
           EvLogMetric 0 "AUC" (auc (leader aml));
           EvLogModel 0 (leader aml) "model";
           EvGetArtifactUri 0 "model" uri;
           EvEndRun 0 FINISHED].
Proof.
  split; [reflexivity|].
  apply (proj1 (store_calls_of_a_successful_run Sample.env Sample.world)
           "exp-A" "claim" 5%Z "/data/train.csv").
  reflexivity.
Defined.

(** ** Paths the script builds *)

Lemma append_cons (c : ascii) (a b : string) :
  String c a +:+ b = String c (a +:+ b).
Proof. reflexivity. Qed.

Lemma append_nil_l (b : string) : "" +:+ b = b.
Proof. reflexivity. Qed.

Lemma append_assoc (a b c : string) : (a +:+ b) +:+ c = a +:+ (b +:+ c).
Proof.
  induction a as [|x a IH]; [done|]. rewrite !append_cons. by f_equal.
Qed.

Lemma is_sep_eq (c : ascii) : Py.is_sep c = true → c = "/"%char.
Proof. apply Ascii.eqb_eq. Qed.

Lemma upto_last_sep_app (a b : string) :
  Py.upto_last_sep (a +:+ b)
  = match Py.upto_last_sep b with
    | EmptyString => Py.upto_last_sep a
    | String x h => a +:+ String x h
    end.
Proof.
  induction a as [|c a IH].
  - rewrite append_nil_l. by destruct (Py.upto_last_sep b).
  - rewrite append_cons. cbn [Py.upto_last_sep]. rewrite IH.
    destruct (Py.upto_last_sep b) as [|x h]; [done|].
    rewrite append_cons. by destruct a.
Qed.

Lemma last_char_cons_cons (c d : ascii) (a : string) :
  Py.last_char (String c (String d a)) = Py.last_char (String d a).
Proof. cbn [Py.last_char]. by destruct (Py.last_char a). Qed.

Lemma upto_last_sep_ends_sep (a : string) :
  Py.last_char a = Some "/"%char → Py.upto_last_sep a = a.
Proof.
  induction a as [|c a IH]; [done|]. destruct a as [|d a].
  - cbn. intros [= ->]. done.
  - rewrite last_char_cons_cons. intros H.
    change (Py.upto_last_sep (String c (String d a)))
      with (match Py.upto_last_sep (String d a) with
            | EmptyString => if Py.is_sep c then String c "" else ""
            | String x h => String c (String x h)
            end).
    by rewrite (IH H).
Qed.

Lemma basename_cons (c : ascii) (p : string) :
  Py.basename (String c p)
  = match Py.upto_last_sep p with
    | EmptyString => if Py.is_sep c then p else String c p
    | String _ _ => Py.basename p
    end.
Proof. reflexivity. Qed.

Lemma basename_sep_free (b : string) :
  Py.upto_last_sep b = "" → Py.basename b = b.
Proof.
  destruct b as [|c b]; [done|]. rewrite basename_cons. cbn [Py.upto_last_sep].
  destruct (Py.upto_last_sep b); [|done]. by destruct (Py.is_sep c).
Qed.

Lemma basename_app_sep_free (a b : string) :
  Py.last_char a = Some "/"%char → Py.upto_last_sep b = "" →
  Py.basename (a +:+ b) = b.
Proof.
  intros Ha Hb. induction a as [|c a IH]; [done|].
  rewrite append_cons, basename_cons, upto_last_sep_app, Hb.
  destruct a as [|d a].
  - cbn in Ha. injection Ha as ->. reflexivity.
  - rewrite last_char_cons_cons in Ha.
    rewrite (upto_last_sep_ends_sep _ Ha). by apply IH.
Qed.

Lemma all_sep_app (a b : string) :
  Py.all_sep (a +:+ b) = Py.all_sep a && Py.all_sep b.
Proof.
  induction a as [|c a IH]; [done|].
  rewrite append_cons. cbn [Py.all_sep]. rewrite IH. by rewrite andb_assoc.
Qed.

Lemma all_sep_last (a : string) :
  Py.all_sep a = true → a ≠ "" → Py.last_char a = Some "/"%char.
Proof.
  induction a as [|c a IH]; [done|]. cbn [Py.all_sep Py.last_char].
  intros [Hc Ha]%andb_prop _. apply is_sep_eq in Hc as ->.
  destruct a as [|d a]; [done|]. by rewrite (IH Ha).
Qed.

Lemma rstrip_sep_empty (a : string) :
  Py.rstrip_sep a = "" ↔ Py.all_sep a = true.
Proof.
  induction a as [|c a IH]; [done|]. cbn [Py.rstrip_sep Py.all_sep].
  destruct (Py.rstrip_sep a) as [|x r].
  - rewrite (proj1 IH eq_refl), andb_true_r. by destruct (Py.is_sep c).
  - split; [done|]. intros [_ Ha]%andb_prop. by apply IH in Ha.
Qed.

Lemma rstrip_sep_shape (a : string) :
  Py.all_sep a = false →
  Py.all_sep (Py.rstrip_sep a) = false
  ∧ ∃ c, Py.last_char (Py.rstrip_sep a) = Some c ∧ Py.is_sep c = false.
Proof.
  induction a as [|c a IH]; [done|]. cbn [Py.rstrip_sep Py.all_sep].
  intros Hall. destruct (Py.rstrip_sep a) as [|x r] eqn:Hr.
  - rewrite (proj1 (rstrip_sep_empty a) Hr), andb_true_r in Hall.
    rewrite Hall. cbn. rewrite Hall. eauto.
  - assert (Ha : Py.all_sep a = false).
    { destruct (Py.all_sep a) eqn:E; [|done].
      apply rstrip_sep_empty in E. congruence. }
    destruct (IH Ha) as (Hall' & d & Hd & Hsep).
    cbv iota beta. rewrite last_char_cons_cons, Hd.
    change (Py.all_sep (String c (String x r)))
      with (Py.is_sep c && Py.all_sep (String x r)).
    rewrite Hall', andb_false_r. eauto.
Qed.

Lemma rstrip_sep_app_sep (a : string) :
  Py.rstrip_sep (a +:+ "/") = Py.rstrip_sep a.
Proof.
  induction a as [|c a IH]; [done|].
  rewrite append_cons. cbn [Py.rstrip_sep]. by rewrite IH.
Qed.

Lemma rstrip_sep_fixed (a : string) (c : ascii) :
  Py.last_char a = Some c → Py.is_sep c = false → Py.rstrip_sep a = a.
Proof.
  intros Hlast Hsep. induction a as [|x a IH]; [done|].
  cbn [Py.rstrip_sep]. destruct a as [|y a].
  - cbn in Hlast. injection Hlast as ->. cbn. by rewrite Hsep.
  - rewrite last_char_cons_cons in Hlast. by rewrite (IH Hlast).
Qed.

(** What [os.path.dirname] returns is empty, or made of separators only,
    or does not end with a separator. *)
Lemma dirname_shape (p : string) :
  Py.dirname p = ""
  ∨ (Py.all_sep (Py.dirname p) = true ∧ Py.last_char (Py.dirname p) = Some "/"%char)
  ∨ (Py.all_sep (Py.dirname p) = false
     ∧ ∃ c, Py.last_char (Py.dirname p) = Some c ∧ Py.is_sep c = false).
Proof.
  unfold Py.dirname. destruct (Py.all_sep (Py.upto_last_sep p)) eqn:Hall.
  - destruct (Py.upto_last_sep p) as [|c h] eqn:Hh; [by left|].
    right; left. split; [done|]. by apply all_sep_last.
  - right; right. by apply rstrip_sep_shape.
Qed.

(** Joining a directory name and a plain file name, and taking the
    directory name or the base name of the result, gives them back. *)
Lemma dirname_join_dirname (p b : string) :
  Py.upto_last_sep b = "" → b ≠ "" →
  Py.dirname (Py.join (Py.dirname p) b) = Py.dirname p
  ∧ Py.basename (Py.join (Py.dirname p) b) = b.
Proof.
  intros Hb Hne.
  assert (Hstart : Py.startswith b "/" = false).
  { destruct b as [|c b]; [done|]. cbn [Py.upto_last_sep] in Hb.
    unfold Py.startswith.
    change (String.prefix "/" (String c b))
      with (if ascii_dec "/"%char c then String.prefix "" b else false).
    destruct (Py.upto_last_sep b); [|done].
    destruct (Py.is_sep c) eqn:Hc; [done|].
    destruct (ascii_dec "/"%char c) as [<-|]; [discriminate Hc | done]. }
  unfold Py.join. rewrite Hstart.
  destruct (dirname_shape p) as [Hd|[[Hall Hlast]|(Hall & c & Hlast & Hsep)]].
  - rewrite Hd. cbn [Py.last_char]. split.
    + unfold Py.dirname. by rewrite Hb.
    + by apply basename_sep_free.
  - rewrite Hlast. cbn. split.
    + unfold Py.dirname at 1.
      rewrite upto_last_sep_app, Hb, (upto_last_sep_ends_sep _ Hlast).
      by rewrite Hall.
    + by apply basename_app_sep_free.
  - rewrite Hlast, Hsep. split.
    + unfold Py.dirname at 1.
      assert (Hup : Py.upto_last_sep ("/" +:+ b) = "/").
      { rewrite append_cons, append_nil_l. cbn [Py.upto_last_sep]. by rewrite Hb. }
      rewrite upto_last_sep_app, Hup.
      rewrite all_sep_app, Hall. cbn [andb].
      rewrite rstrip_sep_app_sep. by apply (rstrip_sep_fixed _ c).
    + rewrite <- append_assoc. apply basename_app_sep_free; [|done].
      rewrite last_char_app. done.
Qed.

(** The column-type snapshot of [train] is written next to the input file
    (in the directory [os.path.dirname] gives for the input path), under
    the name [train_col_types.json]; so it is under this name that the
    snapshot is logged in [input_data]. *)
Lemma snapshot_next_to_input (file_path : string) :
  Py.dirname (col_type_path file_path) = Py.dirname file_path
  ∧ Py.basename (col_type_path file_path) = "train_col_types.json".
Proof. by apply dirname_join_dirname. Qed.

(** ** Stripping the scheme *)

Lemma replace_go_no_file_scheme (s : string) :
  no_file_scheme s = true → Py.replace_go "file:" "" 0 s = s.
Proof.
  induction s as [|c s IH]; [done|].
  cbn [no_file_scheme Py.replace_go]. intros [Hp Hs]%andb_prop.
  apply negb_true_iff in Hp. rewrite Hp. by rewrite IH.
Qed.

(** [model_uri.replace("file:", "")] on a URI made of the scheme [file:]
    and of a path that holds no [file:] of its own gives the path: the
    leaderboard of [train] then goes to [leaderboard.csv] in the directory
    the URI designates. *)
Lemma replace_strips_file_scheme (path : string) :
  no_file_scheme path = true →
  Py.replace ("file:" +:+ path) "file:" "" = path
  ∧ leaderboard_path ("file:" +:+ path) = Py.join path "leaderboard.csv".
Proof.
  intros Hfree.
  assert (H : Py.replace ("file:" +:+ path) "file:" "" = path).
  { unfold Py.replace.
    transitivity (Py.replace_go "file:" "" 0 path);
      [by destruct path | by apply replace_go_no_file_scheme]. }
  split; [done|]. unfold leaderboard_path. by rewrite H.
Qed.

Lemma replace_strips_file_scheme_witness :
  Py.replace "file:///app/backend/mlruns/1/0/artifacts/model" "file:" ""
  = "///app/backend/mlruns/1/0/artifacts/model"
  ∧ leaderboard_path "file:///app/backend/mlruns/1/0/artifacts/model"
    = "///app/backend/mlruns/1/0/artifacts/model/leaderboard.csv".
Proof.
  destruct (replace_strips_file_scheme "///app/backend/mlruns/1/0/artifacts/model"
              eq_refl) as [H1 H2].
  split; [exact H1 | exact H2].
Defined.

(** ** A deleted experiment *)

Ltac deleted_leaf :=
  calls_leaf;
  split_and!;
  [ eexists; reflexivity
  | cbn [In];
    let Hin := fresh "Hin" in
    intros Hin; first [ reflexivity | in_cases Hin ]
  | reflexivity
  | reflexivity
  | repeat (constructor; [split; reflexivity|]); constructor ].

(** When the experiment name belongs to a deleted experiment, neither
    variant recovers: the creation is refused, the fallback fetches the
    deleted experiment, and [mlflow.set_experiment] raises.  [train] always
    fails, with the error of [set_experiment] whenever it gets that far;
    [main] fails with it after four calls.  No run is started, nothing is
    handed to the engine, and the registry and the runs are left as they
    were. *)
Lemma deleted_experiment_stops_both_variants (env : Env) (w : World)
    (name : string) (i : nat) (e : Experiment) :
  find_by_name name 0 (experiments w) = Some (i, e) →
  lifecycle_stage e = deleted →
  (∀ target models file_path,
     let out := train env name target models file_path w in
     (∃ err, out.1 = Err err)
     ∧ (In (EvSetExperiment name) (calls_since w out.2) →
        out.1 = Err (MlflowException name))
     ∧ experiments out.2 = experiments w
     ∧ runs out.2 = runs w
     ∧ Forall (λ ev, run_call ev = false ∧ engine_call ev = false)
         (calls_since w out.2))
  ∧ (∀ target models,
       let out := main env (mkArgs name target models) w in
       out.1 = Err (MlflowException name)
       ∧ calls_since w out.2
         = [EvH2OInit; EvCreateExperiment name; EvGetExperimentByName name;
            EvSetExperiment name]
       ∧ fs out.2 = fs w
       ∧ experiments out.2 = experiments w
       ∧ runs out.2 = runs w).
Proof.
  intros Hfind Hdel. split.
  - intros target models path.
    change (wp (train env name target models path) (λ r w',
      (∃ err, r = Err err)
      ∧ (In (EvSetExperiment name) (drop (length (trace w)) (trace w')) →
         r = Err (MlflowException name))
      ∧ experiments w' = experiments w
      ∧ runs w' = runs w
      ∧ Forall (λ ev, run_call ev = false ∧ engine_call ev = false)
          (drop (length (trace w)) (trace w'))) w).
    wp_go.
    all: deleted_leaf.
  - intros target models.
    change (wp (main env (mkArgs name target models)) (λ r w',
      r = Err (MlflowException name)
      ∧ drop (length (trace w)) (trace w')
        = [EvH2OInit; EvCreateExperiment name; EvGetExperimentByName name;
           EvSetExperiment name]
      ∧ fs w' = fs w
      ∧ experiments w' = experiments w
      ∧ runs w' = runs w) w).
    wp_go.
    all: calls_leaf; split_and!; reflexivity.
Qed.

Lemma deleted_experiment_stops_both_variants_witness :
  (train Sample.env "exp-A" "claim" 5 "/data/train.csv" Sample.world_deleted).1
  = Err (MlflowException "exp-A")
  ∧ (main Sample.env (mkArgs "exp-A" "claim" 5) Sample.world_deleted).1
    = Err (MlflowException "exp-A").
Proof.
  destruct (deleted_experiment_stops_both_variants Sample.env Sample.world_deleted
              "exp-A" 1 (mkExperiment "exp-A" "file:///app/backend/mlruns/1" deleted)
              eq_refl eq_refl) as [Ht Hm].
  split.
  - destruct (Ht "claim" 5%Z "/data/train.csv") as (_ & H & _).
    apply H. vm_compute. in_list.
  - destruct (Hm "claim" 5%Z) as [H _]. exact H.
Defined.

(** ** When the leaderboard cannot be written *)



